(** * remit-lens: the remittance comparison engine of [remit/compare.py]

    A shallow embedding of the comparison engine and the proofs of the
    properties its specification states.

    Numbers.  The engine computes on Python floats (binary64).  Two
    embeddings are used.

    - The engine as a whole ([Quote], [Comparison], [compare] and the
      views) is embedded on exact rationals ([Q]): every arithmetic
      operation is the exact one, and [round(x, n)] rounds the exact
      value to [n] decimals, ties to even.  Amounts and rates are
      finite numbers, as the engine's contract asks; NaN, infinities,
      overflow and binary rounding error have no counterpart there.
      What is proved on it are orders, selections, structure, and
      the inequalities and fixed points that the rounding of the float
      operations leaves untouched.

    - The two derived values of a quote whose exact values are at
      stake ([true_cost_percent], [kes_per_dollar_effective]) are
      embedded on binary64 itself, in [Binary64]: the float operations
      are the primitive IEEE ones and [round] is CPython's
      (the exact value of the float rounded to [n] decimals, ties to
      even, and the nearest float to that decimal).

    Clock.  The [retrieved_at] stamps of [Quote] and [Comparison] are
    read from the clock and are left out of the records. *)

From Stdlib Require Import Floats.
From Stdlib Require Import QArith Qround Qabs ZArith Bool List String Ascii.
From Stdlib Require Import Lia Lqa Permutation Sorted DecimalString.
Import ListNotations.

Set Warnings "-inexact-float".

Open Scope string_scope.
Open Scope Q_scope.

(** ** Python built-ins used by the engine *)

Module Py.

(** [x < y] and [x <= y] on numbers, as booleans. *)
Definition ltb (x y : Q) : bool := negb (Qle_bool y x).
Definition leb (x y : Q) : bool := Qle_bool x y.

(** Nearest integer, ties to the even one. *)
Definition round_half_even (x : Q) : Z :=
  let f := Qfloor x in
  match Qcompare (x - inject_Z f) (1 # 2) with
  | Lt => f
  | Gt => (f + 1)%Z
  | Eq => if Z.even f then f else (f + 1)%Z
  end.

Definition pow10 (n : nat) : Q := inject_Z (10 ^ Z.of_nat n).

(** [round(x, ndigits)]. *)
Definition round (x : Q) (ndigits : nat) : Q :=
  Qred (inject_Z (round_half_even (x * pow10 ndigits)) / pow10 ndigits).

(** [int(x)]: truncation towards zero. *)
Definition int (x : Q) : Z := Z.quot (Qnum x) (Zpos (Qden x)).

(** [str(n)] for an integer. *)
Definition str_of_int (n : Z) : string := NilZero.string_of_int (Z.to_int n).

(** [sub in s] on strings: [sub] occurs in [s] as a substring. *)
Fixpoint contains (sub s : string) : bool :=
  if String.prefix sub s then true
  else match s with
       | EmptyString => false
       | String _ s' => contains sub s'
       end.

(** [sep.join(parts)]. *)
Definition join (sep : string) (parts : list string) : string :=
  String.concat sep parts.

(** Exceptions the engine can raise. *)
Inductive exn : Type :=
| ValueError (msg : string)
| KeyError (key : string).

Inductive result (A : Type) : Type :=
| Ok (a : A)
| Raise (e : exn).
Arguments Ok {A} a.
Arguments Raise {A} e.

Definition bind {A B : Type} (r : result A) (k : A -> result B) : result B :=
  match r with
  | Ok a => k a
  | Raise e => Raise e
  end.

(** [template.format] with keyword [fields], for templates whose replacement fields
    are plain names.  [cur] is the name being read, when inside braces.
    A name that is not among [fields] raises [KeyError]; a brace that
    is not matched raises [ValueError].  (Doubled braces, conversions
    and format specifications are not modelled; no template of the
    catalog has them.) *)
Fixpoint format_from (fields : list (string * string)) (cur : option string)
    (tpl : string) : result string :=
  match tpl with
  | EmptyString =>
      match cur with
      | None => Ok EmptyString
      | Some _ => Raise (ValueError "expected '}' before end of string")
      end
  | String c rest =>
      match cur with
      | None =>
          if Ascii.eqb c "{" then format_from fields (Some EmptyString) rest
          else if Ascii.eqb c "}"
               then Raise (ValueError "Single '}' encountered in format string")
               else bind (format_from fields None rest)
                         (fun out => Ok (String c out))
      | Some name =>
          if Ascii.eqb c "}" then
            match find (fun kv => String.eqb (fst kv) name) fields with
            | Some kv => bind (format_from fields None rest)
                              (fun out => Ok (snd kv ++ out)%string)
            | None => Raise (KeyError name)
            end
          else format_from fields (Some (name ++ String c EmptyString)%string) rest
      end
  end.

Definition format (tpl : string) (fields : list (string * string)) : result string :=
  format_from fields None tpl.

Section Selection.
Context {A K : Type}.
Variable lt : K -> K -> bool.
Variable key : A -> K.

(** [max(best :: xs, key=key)]: the running best is replaced only by
    an item whose key is strictly greater.  (On an empty sequence
    [max] and [min] raise; the engine calls them on non-empty lists
    only.) *)
Fixpoint max_from (best : A) (xs : list A) : A :=
  match xs with
  | [] => best
  | x :: xs' => max_from (if lt (key best) (key x) then x else best) xs'
  end.

(** [min(best :: xs, key=key)]: the running best is replaced only by
    an item whose key is strictly smaller. *)
Fixpoint min_from (best : A) (xs : list A) : A :=
  match xs with
  | [] => best
  | x :: xs' => min_from (if lt (key x) (key best) then x else best) xs'
  end.

(** [sorted(xs, key=key)]: a stable sort that compares keys with [<]
    only.  An item is placed in front of the first item of the sorted
    rest whose key is not strictly smaller than its own. *)
Fixpoint insert (x : A) (l : list A) : list A :=
  match l with
  | [] => [x]
  | y :: l' => if lt (key y) (key x) then y :: insert x l' else x :: y :: l'
  end.

Definition sorted (xs : list A) : list A := fold_right insert [] xs.
End Selection.

(** [float(z)] for an integer: the nearest float, ties to even (the
    integer is cut to its 53 leading bits); [None] stands for the
    [OverflowError] of an integer that rounds to 2^1024 or beyond. *)
Definition float_of_int (z : Z) : option Q :=
  let shift := Z.max 0 (Z.log2 (Z.abs z) - 52) in
  let m := round_half_even (inject_Z z / inject_Z (2 ^ shift)) in
  let x := (m * 2 ^ shift)%Z in
  if (Z.abs x <? 2 ^ 1024)%Z then Some (inject_Z x) else None.

(** [float(x)] for a number of a JSON document: a float is returned
    as it is, an integer is converted.  (A float whose value is a whole
    number converts to itself, so the whole numbers need not be told
    apart.) *)
Definition float (x : Q) : option Q :=
  if (Zpos (Qden (Qred x)) =? 1)%Z then float_of_int (Qnum (Qred x)) else Some x.

End Py.

(** ** Data types *)

(** A single provider's quote for a transfer. *)
Record Quote : Type := mkQuote {
  provider : string;
  send_currency : string;
  receive_currency : string;
  send_amount : Q;
  receive_amount : Q;
  fee : Q;
  exchange_rate : Q;
  mid_market_rate : Q;
  spread_percent : Q;
  transfer_time : string;
  delivery_method : string;
  estimated : bool;
  url : string
}.

(** Total cost as a percentage of the send amount: fee plus spread.
    (On exact rationals: the key of the rankings.  Its value on floats
    is [Binary64.true_cost_percent].) *)
Definition true_cost_percent (q : Quote) : Q :=
  let fee_percent :=
    if Py.ltb 0 (send_amount q) then (fee q / send_amount q) * 100 else 0 in
  Py.round (fee_percent + spread_percent q) 2.

(** Result of comparing several providers for a corridor and an amount. *)
Record Comparison : Type := mkComparison {
  cmp_send_currency : string;
  cmp_receive_currency : string;
  cmp_send_amount : Q;
  cmp_mid_market_rate : Q;
  quotes : list Quote
}.

(** [order.get(transfer_time, 99)] for the table of [fastest]. *)
Definition order_get (transfer_time : string) : nat :=
  if String.eqb transfer_time "instant" then 0%nat
  else if String.eqb transfer_time "minutes" then 1%nat
  else if String.eqb transfer_time "1-3 hours" then 2%nat
  else if String.eqb transfer_time "hours" then 3%nat
  else if String.eqb transfer_time "1-3 days" then 4%nat
  else if String.eqb transfer_time "days" then 5%nat
  else 99%nat.

(** Provider with the highest [receive_amount]; [None] without quotes. *)
Definition best_rate (c : Comparison) : option Quote :=
  match quotes c with
  | [] => None
  | q :: qs => Some (Py.max_from Py.ltb receive_amount q qs)
  end.

(** Provider with the fastest transfer; [None] without quotes. *)
Definition fastest (c : Comparison) : option Quote :=
  match quotes c with
  | [] => None
  | q :: qs => Some (Py.min_from Nat.ltb (fun q => order_get (transfer_time q)) q qs)
  end.

Definition mpesa_quotes (c : Comparison) : list Quote :=
  filter (fun q => Py.contains "M-Pesa" (delivery_method q)) (quotes c).

(** Best true cost among the providers that deliver to M-Pesa. *)
Definition most_trusted (c : Comparison) : option Quote :=
  match mpesa_quotes c with
  | [] => best_rate c
  | q :: qs => Some (Py.min_from Py.ltb true_cost_percent q qs)
  end.

(** All quotes sorted by true cost, best deal first. *)
Definition ranked (c : Comparison) : list Quote :=
  Py.sorted Py.ltb true_cost_percent (quotes c).

(** ** Exchange rate *)

Definition FALLBACKS : list ((string * string) * Q) :=
  [ (("USD", "KES"), 129.50);
    (("GBP", "KES"), 164.20);
    (("EUR", "KES"), 140.80);
    (("CAD", "KES"), 95.30);
    (("AED", "KES"), 35.25);
    (("AUD", "KES"), 84.60) ].

Definition FALLBACKS_get (from_currency to_currency : string) (default : Q) : Q :=
  match find (fun kv => String.eqb (fst (fst kv)) from_currency
                        && String.eqb (snd (fst kv)) to_currency) FALLBACKS with
  | Some kv => snd kv
  | None => default
  end.

(** The mid-market rate.  [live] is [rate], what the rate feed answered
    for the pair ([data["rates"].get(to_currency)]): [Some rate] for a
    number, [None] when the request or the parsing raised or the answer
    has no number for the pair.  A positive number is returned as a
    float; when it is not positive, or [float(rate)] raises (caught
    like every exception of the block), the table answers. *)
Definition get_mid_market_rate (live : option Q)
    (from_currency to_currency : string) : Q :=
  match live with
  | Some rate =>
      if Py.ltb 0 rate then
        match Py.float rate with
        | Some x => x
        | None => FALLBACKS_get from_currency to_currency 0
        end
      else FALLBACKS_get from_currency to_currency 0
  | None => FALLBACKS_get from_currency to_currency 0
  end.

(** ** Provider rate tables *)

Record Profile : Type := mkProfile {
  spread_pct : Q;
  fee_type : string;
  fee_pct : Q;
  fee_fixed : Q;
  time : string;
  delivery : list string;
  url_template : option string;
  notes : string
}.

Definition _PROVIDER_PROFILES : list (string * Profile) :=
  [ ("Wise",
     {| spread_pct := 0.55; fee_type := "percent+fixed";
        fee_pct := 0.41; fee_fixed := 0.0; time := "minutes";
        delivery := ["M-Pesa"; "Bank deposit"];
        url_template := Some "https://wise.com/send#payInMethod=CARD&sendAmount={amount}&sourceCurrency={from}&targetCurrency=KES";
        notes := "Best rate, M-Pesa delivery, slightly slower than instant" |});
    ("Remitly",
     {| spread_pct := 1.2; fee_type := "tiered";
        fee_pct := 0.0; fee_fixed := 3.99; time := "instant";
        delivery := ["M-Pesa"; "Bank deposit"];
        url_template := Some "https://www.remitly.com/us/en/kenya";
        notes := "Instant to M-Pesa. Economy tier is cheaper but slower." |});
    ("WorldRemit",
     {| spread_pct := 1.8; fee_type := "fixed";
        fee_pct := 0.0; fee_fixed := 3.99; time := "minutes";
        delivery := ["M-Pesa"; "Bank deposit"; "Cash pickup"];
        url_template := Some "https://www.worldremit.com/en/send-money/to-kenya";
        notes := "Wider network, cash pickup at major towns" |});
    ("Western Union",
     {| spread_pct := 3.5; fee_type := "tiered";
        fee_pct := 0.0; fee_fixed := 5.00; time := "minutes";
        delivery := ["M-Pesa"; "Cash pickup"; "Bank deposit"];
        url_template := Some "https://www.westernunion.com/us/en/send-money/app/start";
        notes := "High spread; useful mainly for cash pickup in remote areas" |});
    ("Sendwave",
     {| spread_pct := 1.0; fee_type := "zero";
        fee_pct := 0.0; fee_fixed := 0.0; time := "instant";
        delivery := ["M-Pesa"];
        url_template := Some "https://www.sendwave.com/";
        notes := "Zero fee, instant M-Pesa. Spread slightly wider than Wise." |});
    ("Mukuru",
     {| spread_pct := 2.1; fee_type := "fixed";
        fee_pct := 0.0; fee_fixed := 4.50; time := "1-3 hours";
        delivery := ["Cash pickup"; "Bank deposit"];
        url_template := Some "https://www.mukuru.com/ke/";
        notes := "Strong East Africa footprint; popular for cash collection" |});
    ("LemFi",
     {| spread_pct := 0.8; fee_type := "percent";
        fee_pct := 0.5; fee_fixed := 0.0; time := "minutes";
        delivery := ["M-Pesa"; "Bank deposit"];
        url_template := Some "https://lemfi.com/";
        notes := "Newer provider; competitive rates for diaspora Africans" |}) ].

(** [profiles[name]], [None] when [name not in profiles]. *)
Definition profiles_get (profiles : list (string * Profile)) (name : string)
    : option Profile :=
  option_map snd (find (fun kv => String.eqb (fst kv) name) profiles).

(** [list(profiles.keys())], in the order of the table. *)
Definition profiles_keys (profiles : list (string * Profile)) : list string :=
  map fst profiles.

(** ** Comparison engine *)

(** The fee in the sending currency, by fee model. *)
Definition provider_fee (p : Profile) (send_amount : Q) : Q :=
  if String.eqb (fee_type p) "zero" then 0.0
  else if String.eqb (fee_type p) "percent" then send_amount * fee_pct p / 100
  else if String.eqb (fee_type p) "percent+fixed"
       then (send_amount * fee_pct p / 100) + fee_fixed p
  else fee_fixed p.

(** The provider's exchange rate: the spread below mid-market. *)
Definition provider_rate (p : Profile) (mid_rate : Q) : Q :=
  mid_rate * (1 - spread_pct p / 100).

(** What the recipient gets, before rounding. *)
Definition provider_receive (p : Profile) (send_amount mid_rate : Q) : Q :=
  let net_send := send_amount - provider_fee p send_amount in
  if Py.ltb 0 net_send then net_send * provider_rate p mid_rate else 0.0.

(** The body of the loop of [compare] for a provider of the table. *)
Definition build_quote (name : string) (p : Profile) (send_amount : Q)
    (from_currency to_currency : string) (mid_rate : Q) : Py.result Quote :=
  let fee := provider_fee p send_amount in
  let their_rate := provider_rate p mid_rate in
  let receive_amount := provider_receive p send_amount mid_rate in
  Py.bind
    (Py.format (match url_template p with Some t => t | None => "" end)
               [ ("amount", Py.str_of_int (Py.int send_amount));
                 ("from", from_currency) ])
    (fun link =>
       Py.Ok {| provider := name;
                send_currency := from_currency;
                receive_currency := to_currency;
                send_amount := send_amount;
                receive_amount := Py.round receive_amount 2;
                fee := Py.round fee 2;
                exchange_rate := Py.round their_rate 4;
                mid_market_rate := Py.round mid_rate 4;
                spread_percent := Py.round (spread_pct p) 2;
                transfer_time := time p;
                delivery_method := Py.join ", " (delivery p);
                estimated := true;
                url := link |}).

(** The loop over the active providers; names that are not in the table
    are skipped. *)
Fixpoint build_quotes (profiles : list (string * Profile))
    (active_providers : list string) (send_amount : Q)
    (from_currency to_currency : string) (mid_rate : Q)
    : Py.result (list Quote) :=
  match active_providers with
  | [] => Py.Ok []
  | name :: rest =>
      match profiles_get profiles name with
      | None =>
          build_quotes profiles rest send_amount from_currency to_currency mid_rate
      | Some p =>
          Py.bind (build_quote name p send_amount from_currency to_currency mid_rate)
            (fun q =>
               Py.bind (build_quotes profiles rest send_amount
                                     from_currency to_currency mid_rate)
                 (fun qs => Py.Ok (q :: qs)))
      end
  end.

(** [providers or list(_PROVIDER_PROFILES.keys())]: [None] and the empty
    list are both falsy. *)
Definition active_providers (providers : option (list string)) : list string :=
  match providers with
  | Some (name :: rest) => name :: rest
  | Some [] | None => profiles_keys _PROVIDER_PROFILES
  end.

(** Compare the providers for a send amount and a corridor.  [live] is
    the answer of the rate feed (see [get_mid_market_rate]). *)
Definition compare (live : option Q) (send_amount : Q)
    (from_currency to_currency : string) (providers : option (list string))
    : Py.result Comparison :=
  let mid_rate := get_mid_market_rate live from_currency to_currency in
  if Py.leb mid_rate 0 then
    Py.Raise (Py.ValueError
      ("Could not get exchange rate for " ++ from_currency ++ "→" ++ to_currency))
  else
    Py.bind (build_quotes _PROVIDER_PROFILES (active_providers providers)
                          send_amount from_currency to_currency mid_rate)
      (fun quotes =>
         Py.Ok {| cmp_send_currency := from_currency;
                  cmp_receive_currency := to_currency;
                  cmp_send_amount := send_amount;
                  cmp_mid_market_rate := mid_rate;
                  quotes := quotes |}).

(** ** Vocabulary of the statements *)

(** The error of [compare] for an unavailable rate. *)
Definition rate_unavailable (from_currency to_currency : string) : Py.exn :=
  Py.ValueError
    ("Could not get exchange rate for " ++ from_currency ++ "→" ++ to_currency).

(** [name in _PROVIDER_PROFILES]. *)
Definition in_catalog (name : string) : bool :=
  match profiles_get _PROVIDER_PROFILES name with
  | Some _ => true
  | None => false
  end.

(** ** Vocabulary for the further properties *)

(** [(from_currency, to_currency) in FALLBACKS]. *)
Definition in_fallbacks (from_currency to_currency : string) : bool :=
  existsb (fun kv => String.eqb (fst (fst kv)) from_currency
                     && String.eqb (snd (fst kv)) to_currency) FALLBACKS.

(** The rate feed answered with a positive number that converts to a
    float. *)
Definition live_usable (live : option Q) : bool :=
  match live with
  | Some rate =>
      Py.ltb 0 rate && match Py.float rate with Some _ => true | None => false end
  | None => false
  end.

(** The headline card of [app.py]: what the best quote delivers
    against the send amount at the mid-market rate
    ([q.receive_amount - (send_amount * result.mid_market_rate)]), as
    long as neither product overflows. *)
Definition headline_delta (send_amount : Q) (result : Comparison) (q : Quote) : Q :=
  receive_amount q - (send_amount * cmp_mid_market_rate result).

(** [m] is the first greatest item of [l] by key: every item before it
    is strictly smaller, no item after it is greater. *)
Definition first_max {A K : Type} (lt : K -> K -> bool) (key : A -> K)
    (m : A) (l : list A) : Prop :=
  exists l1 l2,
    l = (l1 ++ m :: l2)%list /\
    Forall (fun a => lt (key a) (key m) = true) l1 /\
    Forall (fun b => lt (key m) (key b) = false) l2.

(** [m] is the first smallest item of [l] by key. *)
Definition first_min {A K : Type} (lt : K -> K -> bool) (key : A -> K)
    (m : A) (l : list A) : Prop :=
  first_max (fun a b => lt b a) key m l.

(** A template without braces, that is, without replacement fields. *)
Fixpoint brace_free (tpl : string) : bool :=
  match tpl with
  | EmptyString => true
  | String c rest =>
      negb (Ascii.eqb c "{") && negb (Ascii.eqb c "}") && brace_free rest
  end.

(** ** Text of a quote *)

Module PyFmt.

Fixpoint zeros (n : nat) : string :=
  match n with
  | O => ""
  | S n' => String "0" (zeros n')
  end.

(** Digits padded with zeros on the left up to [width]. *)
Definition pad_zeros (width : nat) (digits : string) : string :=
  zeros (width - String.length digits) ++ digits.

(** The digits, last one first, with a comma after every third;
    [k] counts the digits since the last comma. *)
Fixpoint group_rev (k : nat) (digits : list ascii) : list ascii :=
  match digits with
  | [] => []
  | d :: rest =>
      if Nat.eqb k 3 then ","%char :: d :: group_rev 1 rest
      else d :: group_rev (S k) rest
  end.

(** The [,] option: thousands separators. *)
Definition group_thousands (digits : string) : string :=
  string_of_list_ascii
    (rev (group_rev 0 (rev (list_ascii_of_string digits)))).

(** [format(x, ".<prec>f")], and [format(x, ",.<prec>f")] when [comma]:
    the sign of [x], then its absolute value rounded to [prec] decimals
    (ties to even), the integer digits grouped by thousands on request,
    and [prec] decimals after a point when [prec] is not 0. *)
Definition format_f (comma : bool) (prec : nat) (x : Q) : string :=
  let n := Py.round_half_even (Qabs x * Py.pow10 prec) in
  let scale := (10 ^ Z.of_nat prec)%Z in
  let int_digits := Py.str_of_int (n / scale) in
  (if Py.ltb x 0 then "-" else "")
  ++ (if comma then group_thousands int_digits else int_digits)
  ++ (if Nat.eqb prec 0 then ""
      else "." ++ pad_zeros prec (Py.str_of_int (n mod scale))).

End PyFmt.

(** [Quote.__repr__]. *)
Definition Quote_repr (q : Quote) : string :=
  "Quote(" ++ provider q ++ ": send " ++ send_currency q ++ " "
  ++ PyFmt.format_f false 2 (send_amount q)
  ++ " → KES " ++ PyFmt.format_f true 0 (receive_amount q)
  ++ ", fee=" ++ PyFmt.format_f false 2 (fee q)
  ++ ", spread=" ++ PyFmt.format_f false 1 (spread_percent q) ++ "%, "
  ++ "true_cost=" ++ PyFmt.format_f false 2 (true_cost_percent q) ++ "%, "
  ++ "time=" ++ transfer_time q ++ ")".

(** ** The derived values of a quote on binary64 *)

Module Binary64.

(** The exact value of a finite float; [None] for infinities and NaN. *)
Definition exact (x : float) : option Q :=
  match Prim2SF x with
  | S754_zero _ => Some 0
  | S754_finite s m e =>
      Some (inject_Z (if s then Zneg m else Zpos m) * Qpower 2 e)
  | S754_infinity _ | S754_nan => None
  end.

Definition sign_bit (x : float) : bool :=
  match Prim2SF x with
  | S754_zero s | S754_finite s _ _ | S754_infinity s => s
  | S754_nan => false
  end.

(** The float nearest to [n / d] (ties to even) for a natural [n], with
    the sign asked for; a zero keeps the sign. *)
Definition of_ratio (negative : bool) (n : Z) (d : positive) : float :=
  match n with
  | Zpos m =>
      SF2Prim (SFdiv prec emax (S754_finite negative m 0) (S754_finite false d 0))
  | _ => if negative then (-0)%float else 0%float
  end.

(** [round(x, ndigits)] on a float, for [ndigits >= 0]: infinities and
    NaN round to themselves; a finite float is rounded, on its exact
    value, to [ndigits] decimals with ties to even, and the result is
    the float nearest to that decimal. *)
Definition round (x : float) (ndigits : nat) : float :=
  match exact x with
  | None => x
  | Some v =>
      of_ratio (sign_bit x)
               (Py.round_half_even (Qabs v * Py.pow10 ndigits))
               (Z.to_pos (10 ^ Z.of_nat ndigits))
  end.

(** A single provider's quote for a transfer. *)
Record Quote : Type := mkQuote {
  provider : string;
  send_currency : string;
  receive_currency : string;
  send_amount : float;
  receive_amount : float;
  fee : float;
  exchange_rate : float;
  mid_market_rate : float;
  spread_percent : float;
  transfer_time : string;
  delivery_method : string;
  estimated : bool;
  url : string
}.

(** Total cost as a percentage of the send amount: fee plus spread. *)
Definition true_cost_percent (q : Quote) : float :=
  let fee_percent :=
    if (0 <? send_amount q)%float
    then ((fee q / send_amount q) * 100)%float
    else 0%float in
  round (fee_percent + spread_percent q)%float 2.

(** Effective rate including the fee. *)
Definition kes_per_dollar_effective (q : Quote) : float :=
  if (send_amount q <=? 0)%float then 0%float
  else
    let net_send := (send_amount q - fee q)%float in
    if (0 <? net_send)%float
    then round (receive_amount q / net_send)%float 2
    else 0%float.

(** The true cost as the specification words it: the fee over the send
    amount, counted as 0 when the send amount is not positive, times
    100, plus the spread, rounded to two decimals. *)
Definition spec_true_cost_percent (q : Quote) : float :=
  round ((if (send_amount q <=? 0)%float then 0%float
          else (fee q / send_amount q)%float) * 100 + spread_percent q)%float 2.

(** The effective rate as the specification words it: the receive
    amount over (send amount - fee), 0 on a non-positive denominator,
    rounded to [ndigits] decimals (4 for a rate). *)
Definition spec_effective_rate (ndigits : nat) (q : Quote) : float :=
  if (send_amount q - fee q <=? 0)%float then 0%float
  else round (receive_amount q / (send_amount q - fee q))%float ndigits.

End Binary64.

(** ** Comparisons and rounding *)

Module PyFacts.

Lemma ltb_lt (x y : Q) : Py.ltb x y = true <-> x < y.
Proof.
  unfold Py.ltb. rewrite negb_true_iff, <- not_true_iff_false, Qle_bool_iff.
  split; [apply Qnot_le_lt | apply Qlt_not_le].
Qed.

Lemma ltb_ge (x y : Q) : Py.ltb x y = false <-> y <= x.
Proof.
  unfold Py.ltb. rewrite negb_false_iff. apply Qle_bool_iff.
Qed.

Lemma leb_le (x y : Q) : Py.leb x y = true <-> x <= y.
Proof. apply Qle_bool_iff. Qed.

Lemma leb_gt (x y : Q) : Py.leb x y = false <-> y < x.
Proof.
  unfold Py.leb. rewrite <- not_true_iff_false, Qle_bool_iff.
  split; [apply Qnot_le_lt | apply Qlt_not_le].
Qed.

(** [x <= 0] is the negation of [x > 0]. *)
Lemma leb_negb_ltb (x y : Q) : Py.leb x y = negb (Py.ltb y x).
Proof. unfold Py.ltb, Py.leb. now rewrite negb_involutive. Qed.

(** The nearest integer is within one half. *)
Lemma round_half_even_near (x : Q) :
  x - (1 # 2) <= inject_Z (Py.round_half_even x) <= x + (1 # 2).
Proof.
  unfold Py.round_half_even.
  pose proof (Qfloor_le x) as Hlo.
  pose proof (Qlt_floor x) as Hhi.
  rewrite inject_Z_plus in Hhi. change (inject_Z 1) with 1 in Hhi.
  destruct (Qcompare_spec (x - inject_Z (Qfloor x)) (1 # 2)) as [He | Hl | Hg].
  - destruct (Z.even (Qfloor x)).
    + lra.
    + rewrite inject_Z_plus. change (inject_Z 1) with 1. lra.
  - lra.
  - rewrite inject_Z_plus. change (inject_Z 1) with 1. lra.
Qed.

(** Rounding is monotone. *)
Lemma round_half_even_mono (x y : Q) :
  x <= y -> (Py.round_half_even x <= Py.round_half_even y)%Z.
Proof.
  intros Hxy. unfold Py.round_half_even.
  pose proof (Qfloor_resp_le _ _ Hxy) as Hf.
  pose proof (Qfloor_le x) as Hxl. pose proof (Qlt_floor x) as Hxh.
  pose proof (Qfloor_le y) as Hyl. pose proof (Qlt_floor y) as Hyh.
  rewrite inject_Z_plus in Hxh, Hyh.
  change (inject_Z 1) with 1 in Hxh, Hyh.
  destruct (Z.eq_dec (Qfloor x) (Qfloor y)) as [E | N].
  - rewrite <- E in *.
    destruct (Qcompare_spec (x - inject_Z (Qfloor x)) (1 # 2));
      destruct (Qcompare_spec (y - inject_Z (Qfloor x)) (1 # 2));
      destruct (Z.even (Qfloor x)); try lia; exfalso; lra.
  - assert (Qfloor x + 1 <= Qfloor y)%Z as Hs by lia.
    destruct (Qcompare_spec (x - inject_Z (Qfloor x)) (1 # 2));
      destruct (Qcompare_spec (y - inject_Z (Qfloor y)) (1 # 2));
      destruct (Z.even (Qfloor x)); destruct (Z.even (Qfloor y)); lia.
Qed.

Lemma round_half_even_Z (n : Z) : Py.round_half_even (inject_Z n) = n.
Proof.
  unfold Py.round_half_even. rewrite Qfloor_Z.
  destruct (Qcompare_spec (inject_Z n - inject_Z n) (1 # 2)); try reflexivity;
    exfalso; lra.
Qed.

Lemma round_half_even_comp (x y : Q) :
  x == y -> Py.round_half_even x = Py.round_half_even y.
Proof.
  intros E. unfold Py.round_half_even.
  rewrite (Qfloor_comp _ _ E).
  assert (x - inject_Z (Qfloor y) == y - inject_Z (Qfloor y)) as E' by (rewrite E; reflexivity).
  now rewrite (Qcompare_comp _ _ E' (1 # 2) (1 # 2) (Qeq_refl _)).
Qed.

Lemma round_comp (x y : Q) (n : nat) : x == y -> Py.round x n = Py.round y n.
Proof.
  intros E. unfold Py.round.
  rewrite (round_half_even_comp (x * Py.pow10 n) (y * Py.pow10 n));
    [reflexivity | now rewrite E].
Qed.

Lemma pow10_pos (n : nat) : 0 < Py.pow10 n.
Proof.
  unfold Py.pow10. change 0 with (inject_Z 0). rewrite <- Zlt_Qlt.
  apply Z.pow_pos_nonneg; lia.
Qed.

(** [round(x, n)] is a whole number of units of [10^-n]. *)
Lemma round_unfold (x : Q) (n : nat) :
  Py.round x n == inject_Z (Py.round_half_even (x * Py.pow10 n)) / Py.pow10 n.
Proof. unfold Py.round. apply Qred_correct. Qed.

(** ... within half a unit of [x]. *)
Lemma round_near (x : Q) (n : nat) :
  x - (1 # 2) / Py.pow10 n <= Py.round x n <= x + (1 # 2) / Py.pow10 n.
Proof.
  rewrite round_unfold.
  pose proof (pow10_pos n) as Hp.
  pose proof (round_half_even_near (x * Py.pow10 n)) as [Hlo Hhi].
  set (r := inject_Z (Py.round_half_even (x * Py.pow10 n))) in *.
  set (d := Py.pow10 n) in *.
  assert (x == x * d / d) as Hx by (field; lra).
  split.
  - apply Qle_shift_div_l; [exact Hp|].
    assert ((x - (1 # 2) / d) * d == x * d - (1 # 2)) as -> by (field; lra).
    exact Hlo.
  - apply Qle_shift_div_r; [exact Hp|].
    assert ((x + (1 # 2) / d) * d == x * d + (1 # 2)) as -> by (field; lra).
    exact Hhi.
Qed.

Lemma round_mono (x y : Q) (n : nat) : x <= y -> Py.round x n <= Py.round y n.
Proof.
  intros Hxy. rewrite !round_unfold.
  pose proof (pow10_pos n) as Hp.
  apply Qmult_le_compat_r.
  - rewrite <- Zle_Qle. apply round_half_even_mono.
    apply Qmult_le_compat_r; [exact Hxy | lra].
  - apply Qlt_le_weak, Qinv_lt_0_compat, Hp.
Qed.

Lemma round_0 (n : nat) : Py.round 0 n == 0.
Proof.
  rewrite round_unfold.
  rewrite (round_half_even_comp (0 * Py.pow10 n) (inject_Z 0))
    by (change (inject_Z 0) with 0; ring).
  rewrite round_half_even_Z. change (inject_Z 0) with 0.
  pose proof (pow10_pos n). field. lra.
Qed.

Lemma round_nonneg (x : Q) (n : nat) : 0 <= x -> 0 <= Py.round x n.
Proof. intros H. rewrite <- (round_0 n). now apply round_mono. Qed.

Lemma round_nonpos (x : Q) (n : nat) : x <= 0 -> Py.round x n <= 0.
Proof. intros H. rewrite <- (round_0 n). now apply round_mono. Qed.

(** Two decimals: within half a cent, and 0 exactly up to half a cent. *)
Lemma round2_near (x : Q) :
  x - (1 # 200) <= Py.round x 2 <= x + (1 # 200).
Proof. exact (round_near x 2). Qed.

Lemma round2_zero_iff (x : Q) :
  0 <= x -> (Py.round x 2 == 0 <-> x <= 1 # 200).
Proof.
  intros Hx. split.
  - intros H0. pose proof (round2_near x) as [Hlo _]. lra.
  - intros Hle. apply Qle_antisym.
    + assert (Py.round (1 # 200) 2 == 0) as <- by reflexivity.
      now apply round_mono.
    + now apply round_nonneg.
Qed.

(** A percentage fee of at most half a percent never rounds up to the
    whole of a positive amount. *)
Lemma round2_percent_below (k send : Q) :
  0 <= k -> k <= 1 # 200 -> 0 < send -> Py.round (send * k) 2 < send.
Proof.
  intros Hk0 Hk Hs.
  assert (send * k <= send * (1 # 200)) as Hm by nra.
  destruct (Qlt_le_dec 1 send) as [Hbig | Hsmall].
  - pose proof (round2_near (send * k)) as [_ Hhi]. lra.
  - assert (Py.round (send * k) 2 <= 0); [| lra].
    assert (Py.round (1 # 200) 2 == 0) as <- by reflexivity.
    apply round_mono. lra.
Qed.

(** ... and on a non-positive amount it never rounds below it. *)
Lemma round2_percent_above (k send : Q) :
  0 <= k -> k <= 1 # 200 -> send <= 0 -> send <= Py.round (send * k) 2.
Proof.
  intros Hk0 Hk Hs.
  assert (send * (1 # 200) <= send * k) as Hm by nra.
  destruct (Qlt_le_dec send (-1)) as [Hbig | Hsmall].
  - pose proof (round2_near (send * k)) as [Hlo _]. lra.
  - assert (0 <= Py.round (send * k) 2); [| lra].
    assert (Py.round (- (1 # 200)) 2 == 0) as <- by reflexivity.
    apply round_mono. lra.
Qed.

(** So rounding such a fee does not change whether it eats the whole
    amount. *)
Lemma round2_percent_net (k send : Q) :
  0 <= k -> k <= 1 # 200 ->
  (send - Py.round (send * k) 2 <= 0 <-> send - send * k <= 0).
Proof.
  intros Hk0 Hk.
  destruct (Qlt_le_dec 0 send) as [Hpos | Hneg].
  - pose proof (round2_percent_below k send Hk0 Hk Hpos).
    assert (send * k <= send * (1 # 200)) by nra.
    split; intros; exfalso; lra.
  - pose proof (round2_percent_above k send Hk0 Hk Hneg).
    assert (send * (1 # 200) <= send * k) by nra.
    split; intros; lra.
Qed.

(** [float] of an integer: positive stays positive, up to 2^53 nothing
    changes, and from 2^1024 on it raises. *)
Lemma pow2_shift_le (z : Z) :
  (0 < z)%Z -> (2 ^ Z.max 0 (Z.log2 z - 52) <= z)%Z.
Proof.
  intros Hz. destruct (Z.log2_spec z Hz) as [Hlo _].
  destruct (Z.max_spec 0 (Z.log2 z - 52)) as [[_ ->] | [_ ->]].
  - eapply Z.le_trans; [| exact Hlo].
    apply Z.pow_le_mono_r; lia.
  - simpl. lia.
Qed.

Lemma round_half_even_ge (n : Z) (x : Q) :
  inject_Z n <= x -> (n <= Py.round_half_even x)%Z.
Proof.
  intros H. rewrite <- (round_half_even_Z n). now apply round_half_even_mono.
Qed.

Lemma float_of_int_mantissa (z k : Z) :
  (0 < z)%Z -> (0 <= k)%Z -> (2 ^ k * 2 ^ Z.max 0 (Z.log2 z - 52) <= z)%Z ->
  (2 ^ k <= Py.round_half_even
              (inject_Z z / inject_Z (2 ^ Z.max 0 (Z.log2 z - 52))))%Z.
Proof.
  intros Hz Hk Hle. apply round_half_even_ge.
  set (d := (2 ^ Z.max 0 (Z.log2 z - 52))%Z) in *.
  assert (0 < d)%Z as Hd by (apply Z.pow_pos_nonneg; lia).
  apply Qle_shift_div_l.
  - change 0 with (inject_Z 0). now rewrite <- Zlt_Qlt.
  - rewrite <- inject_Z_mult, <- Zle_Qle. exact Hle.
Qed.

Lemma float_of_int_pos (z : Z) (x : Q) :
  (0 < z)%Z -> Py.float_of_int z = Some x -> 0 < x.
Proof.
  intros Hz. unfold Py.float_of_int. rewrite (Z.abs_eq z) by lia.
  pose proof (float_of_int_mantissa z 0 Hz (Z.le_refl 0)) as Hm.
  rewrite Z.pow_0_r, Z.mul_1_l in Hm. specialize (Hm (pow2_shift_le z Hz)).
  set (shift := Z.max 0 (Z.log2 z - 52)) in *.
  set (m := Py.round_half_even (inject_Z z / inject_Z (2 ^ shift))) in *.
  destruct (Z.abs (m * 2 ^ shift) <? 2 ^ 1024)%Z; [| discriminate].
  intros [= <-]. change 0 with (inject_Z 0). rewrite <- Zlt_Qlt.
  apply Z.mul_pos_pos; [lia | apply Z.pow_pos_nonneg; lia].
Qed.

Lemma float_of_int_small (z : Z) :
  (0 < z)%Z -> (z <= 2 ^ 53)%Z -> Py.float_of_int z = Some (inject_Z z).
Proof.
  intros Hz Hle. unfold Py.float_of_int. rewrite (Z.abs_eq z) by lia.
  assert (Z.log2 z <= 53)%Z as Hlog
    by (rewrite <- (Z.log2_pow2 53) by lia; now apply Z.log2_le_mono).
  destruct (Z.eq_dec (Z.log2 z) 53) as [E | N].
  - assert (z = 2 ^ 53)%Z as ->.
    { destruct (Z.log2_spec z Hz) as [Hlo _]. rewrite E in Hlo. lia. }
    vm_compute. reflexivity.
  - rewrite Z.max_l by lia. rewrite Z.pow_0_r.
    rewrite (round_half_even_comp (inject_Z z / inject_Z 1) (inject_Z z))
      by (change (inject_Z 1) with 1; field).
    rewrite round_half_even_Z, Z.mul_1_r.
    assert ((Z.abs z <? 2 ^ 1024)%Z = true) as ->; [| reflexivity].
    apply Z.ltb_lt. rewrite Z.abs_eq by lia.
    eapply Z.le_lt_trans; [exact Hle |]. apply Z.pow_lt_mono_r; lia.
Qed.

Lemma float_of_int_overflow (z : Z) :
  (2 ^ 1024 <= z)%Z -> Py.float_of_int z = None.
Proof.
  intros Hbig.
  assert (0 < 2 ^ 1024)%Z as Hp by (apply Z.pow_pos_nonneg; lia).
  assert (0 < z)%Z as Hz by lia.
  unfold Py.float_of_int. rewrite (Z.abs_eq z) by lia.
  assert (1024 <= Z.log2 z)%Z as Hlog by (apply Z.log2_le_pow2; lia).
  destruct (Z.log2_spec z Hz) as [Hlo _].
  assert (Z.max 0 (Z.log2 z - 52) = Z.log2 z - 52)%Z as Hshift by lia.
  assert (2 ^ 52 * 2 ^ Z.max 0 (Z.log2 z - 52) = 2 ^ Z.log2 z)%Z as Hsplit.
  { rewrite Hshift, <- Z.pow_add_r by lia. f_equal. lia. }
  assert (0 <= 52)%Z as H52 by lia.
  pose proof (float_of_int_mantissa z 52 Hz H52) as Hm.
  rewrite Hsplit in Hm. specialize (Hm Hlo).
  set (shift := Z.max 0 (Z.log2 z - 52)) in *.
  set (m := Py.round_half_even (inject_Z z / inject_Z (2 ^ shift))) in *.
  assert (2 ^ 1024 <= m * 2 ^ shift)%Z as Hx.
  { assert (0 < 2 ^ shift)%Z by (apply Z.pow_pos_nonneg; lia).
    assert (2 ^ 1024 <= 2 ^ Z.log2 z)%Z by (apply Z.pow_le_mono_r; lia).
    rewrite <- Hsplit in *. nia. }
  assert ((Z.abs (m * 2 ^ shift) <? 2 ^ 1024)%Z = false) as ->; [| reflexivity].
  apply Z.ltb_ge. rewrite Z.abs_eq by lia. exact Hx.
Qed.

Lemma float_pos (r x : Q) : 0 < r -> Py.float r = Some x -> 0 < x.
Proof.
  intros Hr. unfold Py.float.
  destruct (Zpos (Qden (Qred r)) =? 1)%Z; [| now intros [= <-]].
  apply float_of_int_pos.
  rewrite <- (Qred_correct r) in Hr. unfold Qlt in Hr. simpl in Hr. lia.
Qed.

Lemma float_small (r : Q) :
  0 < r -> r <= inject_Z (2 ^ 53) -> exists x, Py.float r = Some x /\ x == r.
Proof.
  intros Hr Hle. unfold Py.float.
  destruct (Zpos (Qden (Qred r)) =? 1)%Z eqn:E;
    [| exists r; split; reflexivity].
  apply Z.eqb_eq in E.
  assert (r == inject_Z (Qnum (Qred r))) as Hval.
  { rewrite <- (Qred_correct r) at 1. unfold Qeq, inject_Z. simpl.
    rewrite E. lia. }
  exists (inject_Z (Qnum (Qred r))). split; [| now symmetry].
  apply float_of_int_small.
  - rewrite Hval in Hr. change 0 with (inject_Z 0) in Hr. now rewrite <- Zlt_Qlt in Hr.
  - rewrite Hval in Hle. now rewrite <- Zle_Qle in Hle.
Qed.

Lemma Qred_inject_Z (z : Z) : Qred (inject_Z z) = inject_Z z.
Proof.
  unfold Qred, inject_Z.
  pose proof (Z.ggcd_gcd z 1) as Hg.
  pose proof (Z.ggcd_correct_divisors z 1) as Hd.
  destruct (Z.ggcd z 1) as [g [a b]]. simpl in Hg, Hd.
  rewrite Z.gcd_1_r in Hg. subst g. destruct Hd as [Ha Hb].
  rewrite !Z.mul_1_l in *. now subst a b.
Qed.

Lemma float_overflow (z : Z) : (2 ^ 1024 <= z)%Z -> Py.float (inject_Z z) = None.
Proof.
  intros H. unfold Py.float. rewrite Qred_inject_Z.
  cbn [inject_Z Qden Qnum]. rewrite Z.eqb_refl. now apply float_of_int_overflow.
Qed.

End PyFacts.

(** ** [max], [min] and [sorted] over a total preorder of keys *)

Section SelectionFacts.
Context {A K : Type}.
Variable lt : K -> K -> bool.
Variable le : K -> K -> Prop.
Variable key : A -> K.

Hypothesis le_trans : forall a b c, le a b -> le b c -> le a c.
Hypothesis le_total : forall a b, le a b \/ le b a.
Hypothesis lt_true : forall a b, lt a b = true -> ~ le b a.
Hypothesis lt_false : forall a b, lt a b = false -> le b a.

Lemma key_le_refl (a : K) : le a a.
Proof. destruct (le_total a a); assumption. Qed.

Lemma key_lt_le (a b : K) : lt a b = true -> le a b.
Proof.
  intros H. destruct (le_total a b) as [L | L]; [exact L|].
  now apply lt_true in H.
Qed.

Lemma max_from_spec (xs : list A) : forall best,
  let m := Py.max_from lt key best xs in
  In m (best :: xs) /\ Forall (fun x => le (key x) (key m)) (best :: xs).
Proof.
  induction xs as [| x xs IH]; intros best; cbn zeta.
  - simpl. split; [now left | constructor; [apply key_le_refl | constructor]].
  - simpl Py.max_from.
    destruct (IH (if lt (key best) (key x) then x else best)) as [Hin Hall].
    inversion Hall as [| ? ? Hb Hrest]; subst.
    destruct (lt (key best) (key x)) eqn:E.
    + split.
      * destruct Hin as [<- | Hin]; [right; now left | right; now right].
      * constructor; [| constructor; assumption].
        eapply le_trans; [apply key_lt_le; exact E | exact Hb].
    + split.
      * destruct Hin as [<- | Hin]; [now left | right; now right].
      * constructor; [exact Hb |]. constructor; [| assumption].
        eapply le_trans; [apply lt_false; exact E | exact Hb].
Qed.

Lemma min_from_spec (xs : list A) : forall best,
  let m := Py.min_from lt key best xs in
  In m (best :: xs) /\ Forall (fun x => le (key m) (key x)) (best :: xs).
Proof.
  induction xs as [| x xs IH]; intros best; cbn zeta.
  - simpl. split; [now left | constructor; [apply key_le_refl | constructor]].
  - simpl Py.min_from.
    destruct (IH (if lt (key x) (key best) then x else best)) as [Hin Hall].
    inversion Hall as [| ? ? Hb Hrest]; subst.
    destruct (lt (key x) (key best)) eqn:E.
    + split.
      * destruct Hin as [<- | Hin]; [right; now left | right; now right].
      * constructor; [| constructor; assumption].
        eapply le_trans; [exact Hb | apply key_lt_le; exact E].
    + split.
      * destruct Hin as [<- | Hin]; [now left | right; now right].
      * constructor; [exact Hb |]. constructor; [| assumption].
        eapply le_trans; [exact Hb | apply lt_false; exact E].
Qed.





(** Stability: a class [p] of items none of which is smaller than
    another keeps its order. *)
Section Stable.
Variable p : A -> bool.
Hypothesis p_flat : forall a b,
  p a = true -> p b = true -> lt (key a) (key b) = false.


End Stable.
End SelectionFacts.

(** ** Keys of the engine: numbers and transfer-time ranks *)

Lemma Q_lt_true (a b : Q) : Py.ltb a b = true -> ~ b <= a.
Proof. intros H. apply Qlt_not_le. now apply PyFacts.ltb_lt. Qed.

Lemma Q_lt_false (a b : Q) : Py.ltb a b = false -> b <= a.
Proof. apply PyFacts.ltb_ge. Qed.

Lemma Q_le_total (a b : Q) : a <= b \/ b <= a.
Proof. destruct (Qlt_le_dec a b); [left; now apply Qlt_le_weak | now right]. Qed.

Lemma nat_lt_true (a b : nat) : Nat.ltb a b = true -> ~ (b <= a)%nat.
Proof. intros H. apply Nat.ltb_lt in H. lia. Qed.

Lemma nat_lt_false (a b : nat) : Nat.ltb a b = false -> (b <= a)%nat.
Proof. intros H. apply Nat.ltb_ge in H. exact H. Qed.

Lemma nat_le_total (a b : nat) : (a <= b)%nat \/ (b <= a)%nat.
Proof. lia. Qed.

(** ** Views of a comparison *)


(** C6: for a non-empty list of quotes, [fastest] returns one of them
    whose transfer-time rank is minimal, the ranks being ordered
    instant < minutes < "1-3 hours" < hours < "1-3 days" < days <
    any other text. *)
Theorem fastest_minimal (c : Comparison) :
  quotes c <> [] ->
  (exists q, fastest c = Some q /\ In q (quotes c) /\
     forall q', In q' (quotes c) ->
       (order_get (transfer_time q) <= order_get (transfer_time q'))%nat) /\
  (order_get "instant" < order_get "minutes" < order_get "1-3 hours")%nat /\
  (order_get "1-3 hours" < order_get "hours" < order_get "1-3 days")%nat /\
  (order_get "1-3 days" < order_get "days")%nat /\
  forall t, ~ In t ["instant"; "minutes"; "1-3 hours"; "hours"; "1-3 days"; "days"] ->
    (order_get "days" < order_get t)%nat.
Proof.
  intros Hne.
  split; [| split; [vm_compute; lia | split; [vm_compute; lia | split; [vm_compute; lia |]]]].
  - unfold fastest. destruct (quotes c) as [| q0 qs]; [congruence |].
    destruct (min_from_spec Nat.ltb Nat.le (fun q => order_get (transfer_time q))
                Nat.le_trans nat_le_total nat_lt_true nat_lt_false qs q0)
      as [Hin Hall].
    eexists. split; [reflexivity |]. split; [exact Hin |].
    intros q' Hq'. rewrite Forall_forall in Hall. now apply Hall.
  - intros t Ht. unfold order_get at 2.
    repeat match goal with
           | |- context [String.eqb t ?s] =>
               destruct (String.eqb_spec t s) as [-> | _];
               [exfalso; apply Ht; simpl; tauto |]
           end.
    vm_compute. lia.
Qed.

(** C7: for a non-empty list of quotes, [best_rate] returns one of them
    whose [receive_amount] is maximal; for an empty list [best_rate],
    [fastest] and [most_trusted] are all [None]. *)
Theorem best_rate_maximal (c : Comparison) :
  (quotes c <> [] ->
   exists q, best_rate c = Some q /\ In q (quotes c) /\
     forall q', In q' (quotes c) -> receive_amount q' <= receive_amount q) /\
  (quotes c = [] ->
   best_rate c = None /\ fastest c = None /\ most_trusted c = None).
Proof.
  split.
  - intros Hne. unfold best_rate.
    destruct (quotes c) as [| q0 qs]; [congruence |].
    destruct (max_from_spec Py.ltb Qle receive_amount
                Qle_trans Q_le_total Q_lt_true Q_lt_false qs q0) as [Hin Hall].
    eexists. split; [reflexivity |]. split; [exact Hin |].
    intros q' Hq'. rewrite Forall_forall in Hall. now apply Hall.
  - intros He. unfold most_trusted, mpesa_quotes, best_rate, fastest.
    rewrite He. simpl. auto.
Qed.


(** For the providers of the table, "M-Pesa" occurs in the delivery
    text of a quote exactly when it is one of the delivery methods. *)
Lemma catalog_mpesa_text :
  Forall (fun kv : string * Profile =>
            Py.contains "M-Pesa" (Py.join ", " (delivery (snd kv))) =
            existsb (String.eqb "M-Pesa") (delivery (snd kv)))
         _PROVIDER_PROFILES.
Proof.
  unfold _PROVIDER_PROFILES.
  repeat apply Forall_cons; try apply Forall_nil; reflexivity.
Qed.

(** ** The loop of [compare] *)

Lemma profiles_get_In (profiles : list (string * Profile)) (name : string)
    (p : Profile) :
  profiles_get profiles name = Some p -> In (name, p) profiles.
Proof.
  unfold profiles_get. intros H.
  destruct (find _ profiles) as [[n p'] |] eqn:E; [| discriminate].
  injection H as <-. apply find_some in E as [Hin Heq].
  apply String.eqb_eq in Heq. simpl in Heq. now subst n.
Qed.

(** Every link template of the table formats without error. *)
Lemma catalog_templates_format :
  Forall (fun kv : string * Profile =>
            forall amount from_currency : string, exists link,
              Py.format (match url_template (snd kv) with
                         | Some t => t
                         | None => ""
                         end)
                        [("amount", amount); ("from", from_currency)]
              = Py.Ok link)
         _PROVIDER_PROFILES.
Proof.
  unfold _PROVIDER_PROFILES.
  repeat (constructor; [intros amount from_currency; eexists; reflexivity |]).
  constructor.
Qed.

(** The body of the loop never raises on a provider of the table. *)
Lemma build_quote_ok (name : string) (p : Profile) (send : Q)
    (from_currency to_currency : string) (mid_rate : Q) :
  In (name, p) _PROVIDER_PROFILES ->
  exists link,
    build_quote name p send from_currency to_currency mid_rate =
    Py.Ok {| provider := name;
             send_currency := from_currency;
             receive_currency := to_currency;
             send_amount := send;
             receive_amount := Py.round (provider_receive p send mid_rate) 2;
             fee := Py.round (provider_fee p send) 2;
             exchange_rate := Py.round (provider_rate p mid_rate) 4;
             mid_market_rate := Py.round mid_rate 4;
             spread_percent := Py.round (spread_pct p) 2;
             transfer_time := time p;
             delivery_method := Py.join ", " (delivery p);
             estimated := true;
             url := link |}.
Proof.
  intros Hin.
  pose proof catalog_templates_format as Hfmt.
  rewrite Forall_forall in Hfmt.
  destruct (Hfmt _ Hin (Py.str_of_int (Py.int send)) from_currency) as [link Hl].
  exists link. unfold build_quote. simpl in Hl. rewrite Hl. reflexivity.
Qed.

(** The loop returns one quote for each listed name of the table, in
    the order of the list, each built from the profile of its name. *)
Lemma build_quotes_ok (send : Q) (from_currency to_currency : string)
    (mid_rate : Q) (names : list string) :
  exists qs,
    build_quotes _PROVIDER_PROFILES names send from_currency to_currency mid_rate
      = Py.Ok qs /\
    map provider qs = filter in_catalog names /\
    Forall (fun q => exists p,
              profiles_get _PROVIDER_PROFILES (provider q) = Some p /\
              build_quote (provider q) p send from_currency to_currency mid_rate
                = Py.Ok q) qs.
Proof.
  induction names as [| name rest (qs & Hqs & Hmap & Hall)].
  - exists []. simpl. auto.
  - simpl build_quotes. simpl filter. unfold in_catalog at 1.
    destruct (profiles_get _PROVIDER_PROFILES name) as [p |] eqn:E.
    + destruct (build_quote_ok name p send from_currency to_currency mid_rate
                  (profiles_get_In _ _ _ E)) as [link Hq].
      rewrite Hq, Hqs. simpl. eexists. split; [reflexivity |]. split.
      * simpl. now rewrite Hmap.
      * constructor; [| exact Hall]. exists p. simpl. split; [exact E | exact Hq].
    + exists qs. auto.
Qed.

(** ** [compare] *)

Lemma compare_no_rate (live : option Q) (send : Q)
    (from_currency to_currency : string) (providers : option (list string)) :
  get_mid_market_rate live from_currency to_currency <= 0 ->
  compare live send from_currency to_currency providers
    = Py.Raise (rate_unavailable from_currency to_currency).
Proof.
  intros H. unfold compare. apply PyFacts.leb_le in H. now rewrite H.
Qed.

Lemma compare_with_rate (live : option Q) (send : Q)
    (from_currency to_currency : string) (providers : option (list string)) :
  0 < get_mid_market_rate live from_currency to_currency ->
  exists qs,
    build_quotes _PROVIDER_PROFILES (active_providers providers) send
      from_currency to_currency
      (get_mid_market_rate live from_currency to_currency) = Py.Ok qs /\
    compare live send from_currency to_currency providers =
    Py.Ok {| cmp_send_currency := from_currency;
             cmp_receive_currency := to_currency;
             cmp_send_amount := send;
             cmp_mid_market_rate :=
               get_mid_market_rate live from_currency to_currency;
             quotes := qs |}.
Proof.
  intros H. unfold compare. apply PyFacts.leb_gt in H. rewrite H.
  destruct (build_quotes_ok send from_currency to_currency
              (get_mid_market_rate live from_currency to_currency)
              (active_providers providers)) as (qs & Hqs & _).
  exists qs. rewrite Hqs. auto.
Qed.

(** C1: for every send amount, currency pair and provider subset,
    [compare] raises the unavailable-rate error if and only if the
    resolved mid-market rate is <= 0; it returns a comparison if and
    only if the rate is positive, and it raises nothing else. *)
Theorem compare_raises_iff_rate_unavailable (live : option Q) (send : Q)
    (from_currency to_currency : string) (providers : option (list string)) :
  let mid_rate := get_mid_market_rate live from_currency to_currency in
  let outcome := compare live send from_currency to_currency providers in
  (outcome = Py.Raise (rate_unavailable from_currency to_currency)
     <-> mid_rate <= 0) /\
  ((exists c, outcome = Py.Ok c) <-> 0 < mid_rate) /\
  (forall e, outcome = Py.Raise e ->
     e = rate_unavailable from_currency to_currency).
Proof.
  intros mid_rate outcome. subst outcome.
  destruct (Qlt_le_dec 0 mid_rate) as [Hpos | Hle].
  - destruct (compare_with_rate live send from_currency to_currency providers Hpos)
      as (qs & _ & Hc).
    rewrite Hc. repeat split.
    + discriminate.
    + intros Hle. exfalso. apply (Qlt_not_le _ _ Hpos Hle).
    + intros _. exact Hpos.
    + intros _. eexists. reflexivity.
    + discriminate.
  - rewrite (compare_no_rate live send from_currency to_currency providers Hle).
    repeat split.
    + intros _. exact Hle.
    + intros [c Hc]. discriminate.
    + intros Hpos. exfalso. apply (Qlt_not_le _ _ Hpos Hle).
    + intros e He. now injection He as <-.
Qed.

(** C9: for a non-empty list of provider names and a positive rate,
    [compare] raises nothing and returns exactly one quote for each
    listed name that is in the table, in the order of the list; the
    names that are not in the table are skipped. *)
Theorem compare_skips_unknown_names (live : option Q) (send : Q)
    (from_currency to_currency : string) (providers : list string) :
  providers <> [] ->
  0 < get_mid_market_rate live from_currency to_currency ->
  exists c,
    compare live send from_currency to_currency (Some providers) = Py.Ok c /\
    map provider (quotes c) = filter in_catalog providers.
Proof.
  intros Hne Hpos.
  destruct (compare_with_rate live send from_currency to_currency
              (Some providers) Hpos) as (qs & Hqs & Hc).
  eexists. split; [exact Hc |]. simpl.
  destruct (build_quotes_ok send from_currency to_currency
              (get_mid_market_rate live from_currency to_currency)
              (active_providers (Some providers))) as (qs' & Hqs' & Hmap & _).
  rewrite Hqs in Hqs'. injection Hqs' as <-.
  rewrite Hmap. destruct providers; [congruence | reflexivity].
Qed.

Lemma compare_skips_unknown_names_witness :
  ["Wise"; "NoSuchProvider"; "Sendwave"] <> [] /\
  0 < get_mid_market_rate None "USD" "KES" /\
  exists c,
    compare None 200 "USD" "KES" (Some ["Wise"; "NoSuchProvider"; "Sendwave"])
      = Py.Ok c /\
    map provider (quotes c) =
    filter in_catalog ["Wise"; "NoSuchProvider"; "Sendwave"].
Proof.
  split; [discriminate |]. split; [reflexivity |].
  apply (compare_skips_unknown_names None 200 "USD" "KES"
           ["Wise"; "NoSuchProvider"; "Sendwave"]);
    [discriminate | reflexivity].
Defined.

(** C10: with a positive rate, the empty provider list behaves as no
    list at all: one quote for each provider of the full table (7
    quotes, in the order of the table), not an empty set of quotes. *)
Theorem compare_empty_list_is_full_catalog (live : option Q) (send : Q)
    (from_currency to_currency : string) :
  0 < get_mid_market_rate live from_currency to_currency ->
  compare live send from_currency to_currency (Some [])
    = compare live send from_currency to_currency None /\
  exists c,
    compare live send from_currency to_currency (Some []) = Py.Ok c /\
    map provider (quotes c) = profiles_keys _PROVIDER_PROFILES /\
    List.length (quotes c) = 7%nat.
Proof.
  intros Hpos. split; [reflexivity |].
  destruct (compare_with_rate live send from_currency to_currency
              (Some []) Hpos) as (qs & Hqs & Hc).
  eexists. split; [exact Hc |]. simpl.
  destruct (build_quotes_ok send from_currency to_currency
              (get_mid_market_rate live from_currency to_currency)
              (active_providers (Some []))) as (qs' & Hqs' & Hmap & _).
  rewrite Hqs in Hqs'. injection Hqs' as <-.
  assert (map provider qs = profiles_keys _PROVIDER_PROFILES) as Hkeys
    by (rewrite Hmap; reflexivity).
  split; [exact Hkeys |].
  rewrite <- (length_map provider), Hkeys. reflexivity.
Qed.

Lemma compare_empty_list_is_full_catalog_witness :
  0 < get_mid_market_rate (Some 129.50) "USD" "KES" /\
  compare (Some 129.50) 200 "USD" "KES" (Some [])
    = compare (Some 129.50) 200 "USD" "KES" None /\
  exists c,
    compare (Some 129.50) 200 "USD" "KES" (Some []) = Py.Ok c /\
    map provider (quotes c) = profiles_keys _PROVIDER_PROFILES /\
    List.length (quotes c) = 7%nat.
Proof.
  split; [reflexivity |].
  apply (compare_empty_list_is_full_catalog (Some 129.50) 200 "USD" "KES").
  reflexivity.
Defined.

(** ** Receive amount of the quotes of [compare] *)

(** Every provider of the table keeps a positive share of the
    mid-market rate. *)
Lemma catalog_spread_below_100 :
  Forall (fun kv : string * Profile => 0 < 1 - spread_pct (snd kv) / 100)
         _PROVIDER_PROFILES.
Proof. unfold _PROVIDER_PROFILES. repeat constructor. Qed.

(** For every provider of the table, rounding the fee to two decimals
    does not change whether it eats the whole send amount. *)
Lemma catalog_rounded_fee_net :
  Forall (fun kv : string * Profile =>
            forall send : Q,
              send - Py.round (provider_fee (snd kv) send) 2 <= 0 <->
              send - provider_fee (snd kv) send <= 0)
         _PROVIDER_PROFILES.
Proof.
  assert (forall f send : Q, Py.round f 2 == f ->
            (send - Py.round f 2 <= 0 <-> send - f <= 0)) as Hfix.
  { intros f send E. rewrite E. reflexivity. }
  unfold _PROVIDER_PROFILES.
  repeat apply Forall_cons; try apply Forall_nil;
    intros send; unfold provider_fee; simpl snd;
    cbn [fee_type fee_pct fee_fixed String.eqb Ascii.eqb Bool.eqb];
    try (apply Hfix; reflexivity).
  - rewrite (PyFacts.round_comp (send * 0.41 / 100 + 0.0) (send * (41 # 10000)))
      by (field).
    assert (send * 0.41 / 100 + 0.0 == send * (41 # 10000)) as -> by field.
    apply PyFacts.round2_percent_net; lra.
  - rewrite (PyFacts.round_comp (send * 0.5 / 100) (send * (1 # 200))) by field.
    assert (send * 0.5 / 100 == send * (1 # 200)) as -> by field.
    apply PyFacts.round2_percent_net; lra.
Qed.

Lemma provider_receive_nonneg (p : Profile) (send mid_rate : Q) :
  0 < mid_rate -> 0 < 1 - spread_pct p / 100 ->
  0 <= provider_receive p send mid_rate.
Proof.
  intros Hmid Hspread. unfold provider_receive, provider_rate.
  destruct (Py.ltb 0 (send - provider_fee p send)) eqn:E; [| lra].
  apply PyFacts.ltb_lt in E.
  apply Qlt_le_weak, Qmult_lt_0_compat; [exact E |].
  now apply Qmult_lt_0_compat.
Qed.

(** What [compare] stores in a quote, for a quote of its result. *)
Lemma compare_quote_fields (live : option Q) (send : Q)
    (from_currency to_currency : string) (providers : option (list string))
    (c : Comparison) (q : Quote) :
  compare live send from_currency to_currency providers = Py.Ok c ->
  In q (quotes c) ->
  exists p,
    profiles_get _PROVIDER_PROFILES (provider q) = Some p /\
    send_amount q = send /\
    fee q = Py.round (provider_fee p send) 2 /\
    receive_amount q =
      Py.round (provider_receive p send
                  (get_mid_market_rate live from_currency to_currency)) 2.
Proof.
  intros Hc Hq. unfold compare in Hc.
  destruct (Py.leb (get_mid_market_rate live from_currency to_currency) 0);
    [discriminate |].
  destruct (build_quotes_ok send from_currency to_currency
              (get_mid_market_rate live from_currency to_currency)
              (active_providers providers)) as (qs & Hqs & _ & Hall).
  rewrite Hqs in Hc. simpl in Hc. injection Hc as <-. simpl in Hq.
  rewrite Forall_forall in Hall. destruct (Hall q Hq) as (p & Hp & Hb).
  exists p. split; [exact Hp |].
  destruct (build_quote_ok (provider q) p send from_currency to_currency
              (get_mid_market_rate live from_currency to_currency)
              (profiles_get_In _ _ _ Hp)) as [link Hl].
  rewrite Hl in Hb. injection Hb as <-. simpl. auto.
Qed.

(** C3, as stated, fails: a positive [send_amount - fee] can still give
    a receive amount of 0, because the amount is rounded to two
    decimals.  Sending 0.00001 USD through Sendwave at the fallback
    rate is such a quote. *)
Lemma receive_amount_zero_iff_counterexample :
  ~ (forall (live : option Q) (send : Q) (from_currency to_currency : string)
            (providers : option (list string)) (c : Comparison) (q : Quote),
       0 < get_mid_market_rate live from_currency to_currency ->
       compare live send from_currency to_currency providers = Py.Ok c ->
       In q (quotes c) ->
       0 <= receive_amount q /\
       (receive_amount q == 0 <-> send_amount q - fee q <= 0)).
Proof.
  intros H.
  destruct (compare None 0.00001 "USD" "KES" (Some ["Sendwave"])) as [c |] eqn:E;
    [| discriminate].
  vm_compute in E. injection E as <-.
  destruct (H None 0.00001 "USD" "KES" (Some ["Sendwave"]) _ _
              eq_refl eq_refl (or_introl eq_refl)) as [_ [Hzero _]].
  assert (0 == 0) as H0 by reflexivity.
  apply Hzero in H0. vm_compute in H0. apply H0. reflexivity.
Qed.

(** C3, amended: every quote of [compare] (with a positive rate) has
    [receive_amount >= 0], and [receive_amount] is 0 whenever
    [send_amount - fee <= 0]. *)
Theorem receive_amount_nonneg_zero_when_no_net (live : option Q) (send : Q)
    (from_currency to_currency : string) (providers : option (list string))
    (c : Comparison) (q : Quote) :
  0 < get_mid_market_rate live from_currency to_currency ->
  compare live send from_currency to_currency providers = Py.Ok c ->
  In q (quotes c) ->
  0 <= receive_amount q /\
  (send_amount q - fee q <= 0 -> receive_amount q == 0).
Proof.
  intros Hmid Hc Hq.
  destruct (compare_quote_fields _ _ _ _ _ _ _ Hc Hq)
    as (p & Hp & Hsend & Hfee & Hrecv).
  pose proof (profiles_get_In _ _ _ Hp) as Hin.
  pose proof catalog_spread_below_100 as Hspread.
  pose proof catalog_rounded_fee_net as Hnet.
  rewrite Forall_forall in Hspread, Hnet.
  specialize (Hspread _ Hin). specialize (Hnet _ Hin send). simpl in Hspread, Hnet.
  pose proof (provider_receive_nonneg p send _ Hmid Hspread) as Hnonneg.
  rewrite Hrecv, Hfee, Hsend. split.
  - now apply PyFacts.round_nonneg.
  - intros Hno. apply Hnet in Hno.
    unfold provider_receive. apply PyFacts.ltb_ge in Hno. rewrite Hno.
    reflexivity.
Qed.

Lemma receive_amount_nonneg_zero_when_no_net_witness :
  0 < get_mid_market_rate None "USD" "KES" /\
  exists c q,
    compare None 2 "USD" "KES" (Some ["Remitly"]) = Py.Ok c /\
    In q (quotes c) /\
    send_amount q - fee q <= 0 /\
    0 <= receive_amount q /\
    (send_amount q - fee q <= 0 -> receive_amount q == 0).
Proof.
  split; [reflexivity |].
  destruct (compare None 2 "USD" "KES" (Some ["Remitly"])) as [c |] eqn:E;
    [| discriminate].
  exists c.
  assert (exists q, quotes c = [q] /\ send_amount q - fee q <= 0) as (q & Eq & Hnet)
    by (vm_compute in E; injection E as <-; eexists; split;
        [reflexivity | discriminate]).
  exists q. split; [reflexivity |]. split; [rewrite Eq; now left |].
  split; [exact Hnet |].
  apply (receive_amount_nonneg_zero_when_no_net None 2 "USD" "KES"
           (Some ["Remitly"]) c q);
    [reflexivity | exact E | rewrite Eq; now left].
Defined.

(** ** The views on a concrete comparison *)

Lemma fastest_minimal_witness :
  let quote name t :=
    {| provider := name; send_currency := "USD"; receive_currency := "KES";
       send_amount := 200; receive_amount := 25000; fee := 0;
       exchange_rate := 125; mid_market_rate := 129.5; spread_percent := 1.0;
       transfer_time := t; delivery_method := "M-Pesa"; estimated := true;
       url := "" |} in
  let c :=
    {| cmp_send_currency := "USD"; cmp_receive_currency := "KES";
       cmp_send_amount := 200; cmp_mid_market_rate := 129.5;
       quotes := [quote "Slow" "1-3 days"; quote "Odd" "next week";
                  quote "Fast" "instant"; quote "Mid" "hours"] |} in
  quotes c <> [] /\
  option_map provider (fastest c) = Some "Fast" /\
  exists q, fastest c = Some q /\ In q (quotes c) /\
    forall q', In q' (quotes c) ->
      (order_get (transfer_time q) <= order_get (transfer_time q'))%nat.
Proof.
  intros quote c. split; [discriminate |]. split; [reflexivity |].
  apply (fastest_minimal c). discriminate.
Defined.


(** ** Derived values of a quote, on binary64 *)

Lemma binary64_zero : Prim2SF 0%float = S754_zero false.
Proof. reflexivity. Qed.

Lemma binary64_not_nan (x : float) :
  PrimFloat.is_nan x = false -> Prim2SF x <> S754_nan.
Proof.
  unfold PrimFloat.is_nan. rewrite FloatAxioms.eqb_spec. intros H E.
  rewrite E in H. discriminate.
Qed.

(** [x <= 0] is the negation of [x > 0], NaN apart. *)
Lemma binary64_leb_zero (x : float) :
  PrimFloat.is_nan x = false -> (x <=? 0)%float = negb (0 <? x)%float.
Proof.
  intros H. apply binary64_not_nan in H.
  rewrite FloatAxioms.leb_spec, FloatAxioms.ltb_spec, binary64_zero.
  destruct (Prim2SF x) as [s | s | | s m e]; try congruence;
    destruct s; reflexivity.
Qed.

(** An operand that is NaN makes the difference NaN, which is not
    greater than 0. *)
Lemma binary64_sub_nan (x y : float) :
  PrimFloat.is_nan x = true -> (0 <? x - y)%float = false.
Proof.
  unfold PrimFloat.is_nan. rewrite FloatAxioms.eqb_spec. intros H.
  assert (Prim2SF x = S754_nan) as E.
  { destruct (Prim2SF x) as [s | s | | s m e]; try reflexivity;
      exfalso; revert H; unfold SFeqb, SFcompare.
    - discriminate.
    - destruct s; discriminate.
    - destruct s; rewrite Z.compare_refl, ?Pos.compare_cont_refl; discriminate. }
  rewrite FloatAxioms.ltb_spec, FloatAxioms.sub_spec, E, binary64_zero.
  reflexivity.
Qed.

(** [Binary64.round] on values where the binary expansion decides:
    0.125 and 0.375 are exact ties, 2.675 and 1.005 lie just below
    one, a negative value that rounds to zero keeps its sign, and a
    large float is already a whole number of hundredths. *)
Example binary64_round_samples :
  map (fun x => Binary64.round x 2)
      [0.125; 0.375; 2.675; 1.005; 0.005; -0.001; 94.77585; 1e22]%float
  = [0.12; 0.38; 2.67; 1; 0.01; -0; 94.78; 1e22]%float.
Proof. vm_compute. reflexivity. Qed.

(** C2: for every quote whose send amount is a number,
    [true_cost_percent] is round(fee / send_amount * 100 +
    spread_percent, 2) on floats, where the fee / send_amount term
    counts as 0 when send_amount <= 0. *)
Theorem true_cost_percent_formula (q : Binary64.Quote) :
  PrimFloat.is_nan (Binary64.send_amount q) = false ->
  Binary64.true_cost_percent q = Binary64.spec_true_cost_percent q.
Proof.
  intros Hnum.
  unfold Binary64.true_cost_percent, Binary64.spec_true_cost_percent.
  rewrite (binary64_leb_zero _ Hnum).
  destruct (0 <? Binary64.send_amount q)%float; reflexivity.
Qed.

(** The quote of the test suite with a fee of 23 on 160: the exact
    fee percentage is 14.375, the float one is just below it. *)
Lemma true_cost_percent_formula_witness :
  let q :=
    {| Binary64.provider := "TestProvider"; Binary64.send_currency := "USD";
       Binary64.receive_currency := "KES"; Binary64.send_amount := 160;
       Binary64.receive_amount := 17000; Binary64.fee := 23;
       Binary64.exchange_rate := 127; Binary64.mid_market_rate := 129.5;
       Binary64.spread_percent := 0; Binary64.transfer_time := "minutes";
       Binary64.delivery_method := "M-Pesa"; Binary64.estimated := true;
       Binary64.url := "" |} in
  PrimFloat.is_nan (Binary64.send_amount q) = false /\
  Binary64.true_cost_percent q = 14.37%float /\
  Binary64.true_cost_percent q = Binary64.spec_true_cost_percent q.
Proof.
  intros q. split; [reflexivity |]. split; [vm_compute; reflexivity |].
  apply (true_cost_percent_formula q). reflexivity.
Defined.

(** C5, as stated, fails twice.  The effective rate is not rounded to
    four decimals: a quote that sends 3, pays no fee and delivers 1
    has 0.33, not 0.3333.  And the denominator is not the only guard:
    a quote that sends 0 with a fee of -1 and delivers 5 has a
    positive denominator and the quotient 5, exact at any number of
    decimals, yet its effective rate is 0. *)
Lemma effective_rate_four_decimals_counterexample :
  let quote send_ fee_ receive_ :=
    {| Binary64.provider := "TestProvider"; Binary64.send_currency := "USD";
       Binary64.receive_currency := "KES"; Binary64.send_amount := send_;
       Binary64.receive_amount := receive_; Binary64.fee := fee_;
       Binary64.exchange_rate := 1; Binary64.mid_market_rate := 1;
       Binary64.spread_percent := 0; Binary64.transfer_time := "minutes";
       Binary64.delivery_method := "M-Pesa"; Binary64.estimated := true;
       Binary64.url := "" |} in
  ~ (forall q, Binary64.kes_per_dollar_effective q
               = Binary64.spec_effective_rate 4 q) /\
  Binary64.kes_per_dollar_effective (quote 3 0 1)%float = 0.33%float /\
  Binary64.spec_effective_rate 4 (quote 3 0 1)%float = 0.3333%float /\
  ~ (forall q, Binary64.kes_per_dollar_effective q
               = Binary64.spec_effective_rate 2 q) /\
  Binary64.kes_per_dollar_effective (quote 0 (-1) 5)%float = 0%float /\
  Binary64.spec_effective_rate 2 (quote 0 (-1) 5)%float = 5%float /\
  Binary64.spec_effective_rate 4 (quote 0 (-1) 5)%float = 5%float.
Proof.
  intros quote. repeat split; try (vm_compute; reflexivity).
  - intros H. specialize (H (quote 3 0 1)%float).
    apply (f_equal (fun x => PrimFloat.eqb x 0.33)) in H.
    vm_compute in H. discriminate.
  - intros H. specialize (H (quote 0 (-1) 5)%float).
    apply (f_equal (fun x => PrimFloat.eqb x 0)) in H.
    vm_compute in H. discriminate.
Qed.

(** C5, amended: the effective rate is receive_amount over
    (send_amount - fee), rounded to two decimals, when send_amount > 0
    and send_amount - fee > 0; it is 0 otherwise. *)
Theorem effective_rate_two_decimals (q : Binary64.Quote) :
  let net_send := (Binary64.send_amount q - Binary64.fee q)%float in
  Binary64.kes_per_dollar_effective q =
  if (0 <? Binary64.send_amount q)%float && (0 <? net_send)%float
  then Binary64.round (Binary64.receive_amount q / net_send)%float 2
  else 0%float.
Proof.
  intros net_send. unfold Binary64.kes_per_dollar_effective. fold net_send.
  destruct (PrimFloat.is_nan (Binary64.send_amount q)) eqn:Hnan.
  - unfold net_send. rewrite (binary64_sub_nan _ _ Hnan), andb_false_r.
    now destruct (Binary64.send_amount q <=? 0)%float.
  - rewrite (binary64_leb_zero _ Hnan).
    destruct (0 <? Binary64.send_amount q)%float; reflexivity.
Qed.

(** The scenario of the specification: 25641 delivered for 200 sent
    without fee.  The exact quotient is 128.205; the float quotient is
    just above it and rounds up. *)
Example effective_rate_scenario :
  Binary64.kes_per_dollar_effective
    {| Binary64.provider := "Sendwave"; Binary64.send_currency := "USD";
       Binary64.receive_currency := "KES"; Binary64.send_amount := 200;
       Binary64.receive_amount := 25641; Binary64.fee := 0;
       Binary64.exchange_rate := 128.205; Binary64.mid_market_rate := 129.5;
       Binary64.spread_percent := 1; Binary64.transfer_time := "instant";
       Binary64.delivery_method := "M-Pesa"; Binary64.estimated := true;
       Binary64.url := "" |}
  = 128.21%float.
Proof. vm_compute. reflexivity. Qed.

(** * Further properties of the engine *)

(** ** The rate source *)

Lemma FALLBACKS_get_spec (from_currency to_currency : string) :
  (in_fallbacks from_currency to_currency = true /\
   35 <= FALLBACKS_get from_currency to_currency 0) \/
  (in_fallbacks from_currency to_currency = false /\
   FALLBACKS_get from_currency to_currency 0 = 0).
Proof.
  unfold FALLBACKS_get, in_fallbacks.
  destruct (find _ FALLBACKS) as [kv |] eqn:E.
  - left. apply find_some in E as [Hin Hp]. split.
    + apply existsb_exists. exists kv. auto.
    + assert (Forall (fun kv : string * string * Q => 35 <= snd kv) FALLBACKS)
        as Hall by (unfold FALLBACKS;
                    repeat apply Forall_cons; try apply Forall_nil; simpl; lra).
      rewrite Forall_forall in Hall. now apply Hall.
  - right. split; [| reflexivity].
    apply not_true_is_false. intros Hex.
    apply existsb_exists in Hex as (kv & Hin & Hp).
    rewrite (find_none _ _ E kv Hin) in Hp. discriminate.
Qed.

Lemma get_mid_market_rate_cases (live : option Q)
    (from_currency to_currency : string) :
  (live_usable live = true /\
   exists r x, live = Some r /\ 0 < r /\ Py.float r = Some x /\ 0 < x /\
               get_mid_market_rate live from_currency to_currency = x) \/
  (live_usable live = false /\
   (forall r, live = Some r -> r <= 0 \/ Py.float r = None) /\
   get_mid_market_rate live from_currency to_currency
     = FALLBACKS_get from_currency to_currency 0).
Proof.
  unfold get_mid_market_rate, live_usable. destruct live as [r |].
  - destruct (Py.ltb 0 r) eqn:E.
    + apply PyFacts.ltb_lt in E. destruct (Py.float r) as [x |] eqn:F.
      * left. split; [reflexivity |]. exists r, x.
        pose proof (PyFacts.float_pos r x E F). auto.
      * right. split; [reflexivity |]. split; [| reflexivity].
        intros r' [= <-]. now right.
    + right. split; [reflexivity |]. split; [| reflexivity].
      intros r' [= <-]. left. now apply PyFacts.ltb_ge.
  - right. split; [reflexivity |]. split; [discriminate | reflexivity].
Qed.

(** X1: the resolved rate is never negative, and it is 0 exactly when
    the feed gave no positive number that converts to a float and the
    pair is not in the fallback table.  A positive answer of the feed
    is the rate, as a float: unchanged up to 2^53.  A positive integer
    from 2^1024 on does not convert, and the table answers instead. *)
Theorem get_mid_market_rate_zero_iff (live : option Q)
    (from_currency to_currency : string) :
  let rate := get_mid_market_rate live from_currency to_currency in
  0 <= rate /\
  (rate == 0 <->
   live_usable live = false /\ in_fallbacks from_currency to_currency = false) /\
  (forall r x, live = Some r -> 0 < r -> Py.float r = Some x -> rate = x) /\
  (forall r, live = Some r -> 0 < r -> r <= inject_Z (2 ^ 53) -> rate == r) /\
  (forall z, live = Some (inject_Z z) -> (2 ^ 1024 <= z)%Z ->
     rate = FALLBACKS_get from_currency to_currency 0).
Proof.
  intros rate. subst rate.
  destruct (get_mid_market_rate_cases live from_currency to_currency)
    as [(Hu & r & x & Hl & Hr & Hf & Hx & ->) | (Hu & Hneg & ->)]; rewrite Hu.
  - split; [lra |]. split; [| split; [| split]].
    + split; [intros H0; exfalso; lra | intros [? _]; discriminate].
    + intros r' x' Hl' _ Hf'. congruence.
    + intros r' Hl' Hr' Hsmall.
      destruct (PyFacts.float_small r' Hr' Hsmall) as (x' & Hf' & Hx').
      assert (x = x') as -> by congruence. exact Hx'.
    + intros z Hz Hbig. rewrite Hl in Hz. injection Hz as ->.
      rewrite (PyFacts.float_overflow z Hbig) in Hf. discriminate.
  - assert (forall r x, live = Some r -> 0 < r -> Py.float r = Some x -> False)
      as Hno.
    { intros r x Hl Hr Hf. destruct (Hneg r Hl) as [H | H]; [lra | congruence]. }
    assert (0 <= FALLBACKS_get from_currency to_currency 0 /\
            (FALLBACKS_get from_currency to_currency 0 == 0 <->
             false = false /\ in_fallbacks from_currency to_currency = false))
      as [Hge Hiff].
    { destruct (FALLBACKS_get_spec from_currency to_currency)
        as [[Hin Hv] | [Hin Hv]]; rewrite Hin.
      - split; [lra |].
        split; [intros H0; exfalso; lra | intros [_ ?]; discriminate].
      - rewrite Hv. split; [lra |]. split; [auto | reflexivity]. }
    split; [exact Hge |]. split; [exact Hiff |]. split; [| split].
    + intros r x Hl Hr Hf. exfalso. exact (Hno r x Hl Hr Hf).
    + intros r Hl Hr Hsmall.
      destruct (PyFacts.float_small r Hr Hsmall) as (x & Hf & _).
      exfalso. exact (Hno r x Hl Hr Hf).
    + reflexivity.
Qed.

(** X2: on a pair of the fallback table [compare] never raises,
    whatever the feed answers, the amount and the provider list. *)
Theorem compare_supported_pair_never_raises (live : option Q) (send : Q)
    (from_currency to_currency : string) (providers : option (list string)) :
  in_fallbacks from_currency to_currency = true ->
  exists c, compare live send from_currency to_currency providers = Py.Ok c.
Proof.
  intros Hin.
  assert (0 < get_mid_market_rate live from_currency to_currency) as Hpos.
  { destruct (get_mid_market_rate_cases live from_currency to_currency)
      as [(_ & r & x & _ & _ & _ & Hx & ->) | (_ & _ & ->)]; [exact Hx |].
    destruct (FALLBACKS_get_spec from_currency to_currency)
      as [[_ Hv] | [Hout _]]; [lra | congruence]. }
  destruct (compare_with_rate live send from_currency to_currency providers Hpos)
    as (qs & _ & Hc).
  eexists. exact Hc.
Qed.

Lemma compare_supported_pair_never_raises_witness :
  in_fallbacks "GBP" "KES" = true /\
  exists c, compare (Some (-1)) 50 "GBP" "KES" (Some ["LemFi"]) = Py.Ok c.
Proof.
  split; [reflexivity |].
  apply (compare_supported_pair_never_raises (Some (-1)) 50 "GBP" "KES"
           (Some ["LemFi"])).
  reflexivity.
Defined.

(** X3: without a positive answer of the feed, [compare] on a pair
    that is not in the fallback table raises the unavailable-rate
    error. *)
Theorem compare_unsupported_pair_raises (live : option Q) (send : Q)
    (from_currency to_currency : string) (providers : option (list string)) :
  live_usable live = false ->
  in_fallbacks from_currency to_currency = false ->
  compare live send from_currency to_currency providers
    = Py.Raise (rate_unavailable from_currency to_currency).
Proof.
  intros Hu Hin. apply compare_no_rate.
  destruct (get_mid_market_rate_cases live from_currency to_currency)
    as [(Hu' & _) | (_ & _ & ->)]; [congruence |].
  destruct (FALLBACKS_get_spec from_currency to_currency)
    as [[Hin' _] | [_ ->]]; [congruence | lra].
Qed.

Lemma compare_unsupported_pair_raises_witness :
  live_usable None = false /\
  in_fallbacks "JPY" "KES" = false /\
  compare None 200 "JPY" "KES" None = Py.Raise (rate_unavailable "JPY" "KES").
Proof.
  split; [reflexivity |]. split; [reflexivity |].
  apply (compare_unsupported_pair_raises None 200 "JPY" "KES" None); reflexivity.
Defined.

(** ** The quotes of [compare] *)

(** A quote of the result of [compare] is the record the loop builds
    from the profile of its provider. *)
Lemma compare_quote_record (live : option Q) (send : Q)
    (from_currency to_currency : string) (providers : option (list string))
    (c : Comparison) (q : Quote) :
  compare live send from_currency to_currency providers = Py.Ok c ->
  In q (quotes c) ->
  let mid_rate := get_mid_market_rate live from_currency to_currency in
  0 < mid_rate /\
  exists p link,
    In (provider q, p) _PROVIDER_PROFILES /\
    q = {| provider := provider q;
           send_currency := from_currency;
           receive_currency := to_currency;
           send_amount := send;
           receive_amount := Py.round (provider_receive p send mid_rate) 2;
           fee := Py.round (provider_fee p send) 2;
           exchange_rate := Py.round (provider_rate p mid_rate) 4;
           mid_market_rate := Py.round mid_rate 4;
           spread_percent := Py.round (spread_pct p) 2;
           transfer_time := time p;
           delivery_method := Py.join ", " (delivery p);
           estimated := true;
           url := link |}.
Proof.
  intros Hc Hq mid_rate. subst mid_rate. unfold compare in Hc.
  destruct (Py.leb (get_mid_market_rate live from_currency to_currency) 0) eqn:E;
    [discriminate |].
  apply PyFacts.leb_gt in E. split; [exact E |].
  destruct (build_quotes_ok send from_currency to_currency
              (get_mid_market_rate live from_currency to_currency)
              (active_providers providers)) as (qs & Hqs & _ & Hall).
  rewrite Hqs in Hc. simpl in Hc. injection Hc as <-. simpl in Hq.
  rewrite Forall_forall in Hall. destruct (Hall q Hq) as (p & Hp & Hb).
  apply profiles_get_In in Hp.
  destruct (build_quote_ok (provider q) p send from_currency to_currency
              (get_mid_market_rate live from_currency to_currency) Hp)
    as [link Hl].
  exists p, link. split; [exact Hp |].
  rewrite Hl in Hb. now injection Hb.
Qed.

(** Bounds on the cost models of the table: the provider keeps between
    96.5% and 99.45% of the mid-market rate, and on a non-negative
    amount its fee is between 0 and half a percent plus 5. *)
Lemma catalog_cost_bounds :
  Forall (fun kv : string * Profile =>
            (193 # 200) <= 1 - spread_pct (snd kv) / 100 <= (1989 # 2000) /\
            0 <= spread_pct (snd kv) /\
            forall send : Q, 0 <= send ->
              0 <= provider_fee (snd kv) send <= send * (1 # 200) + 5)
         _PROVIDER_PROFILES.
Proof.
  unfold _PROVIDER_PROFILES.
  repeat apply Forall_cons; try apply Forall_nil;
    (split; [split; vm_compute; discriminate |]);
    (split; [vm_compute; discriminate |]);
    intros send Hs; unfold provider_fee; simpl snd;
    cbn [fee_type fee_pct fee_fixed String.eqb Ascii.eqb Bool.eqb];
    unfold Qdiv; change (/ 100) with (1 # 100); split; lra.
Qed.

Lemma round_idempotent (x : Q) (n : nat) :
  Py.round (Py.round x n) n = Py.round x n.
Proof.
  unfold Py.round at 1 3. f_equal. f_equal. f_equal.
  pose proof (PyFacts.pow10_pos n) as Hp.
  rewrite (PyFacts.round_half_even_comp (Py.round x n * Py.pow10 n)
             (inject_Z (Py.round_half_even (x * Py.pow10 n)))).
  - apply PyFacts.round_half_even_Z.
  - rewrite PyFacts.round_unfold. field. lra.
Qed.

(** The rate in the header of a comparison is the resolved rate, and
    it is positive. *)
Lemma compare_header_rate (live : option Q) (send : Q)
    (from_currency to_currency : string) (providers : option (list string))
    (c : Comparison) :
  compare live send from_currency to_currency providers = Py.Ok c ->
  0 < get_mid_market_rate live from_currency to_currency /\
  cmp_mid_market_rate c = get_mid_market_rate live from_currency to_currency.
Proof.
  intros Hc.
  destruct (Qlt_le_dec 0 (get_mid_market_rate live from_currency to_currency))
    as [H | H].
  - split; [exact H |].
    destruct (compare_with_rate live send from_currency to_currency providers H)
      as (qs & _ & Hc').
    rewrite Hc' in Hc. now injection Hc as <-.
  - rewrite (compare_no_rate live send from_currency to_currency providers H) in Hc.
    discriminate.
Qed.

(** X4: a comparison echoes its inputs: the header carries the send
    amount, the currencies and the resolved rate, and every quote
    carries the send amount, the currencies, the rate rounded to four
    decimals and the estimated flag. *)
Theorem compare_echoes_inputs (live : option Q) (send : Q)
    (from_currency to_currency : string) (providers : option (list string))
    (c : Comparison) :
  compare live send from_currency to_currency providers = Py.Ok c ->
  let mid_rate := get_mid_market_rate live from_currency to_currency in
  cmp_send_amount c = send /\
  cmp_send_currency c = from_currency /\
  cmp_receive_currency c = to_currency /\
  cmp_mid_market_rate c = mid_rate /\
  Forall (fun q => send_amount q = send /\
                   send_currency q = from_currency /\
                   receive_currency q = to_currency /\
                   mid_market_rate q = Py.round mid_rate 4 /\
                   estimated q = true) (quotes c).
Proof.
  intros Hc mid_rate.
  assert (0 < mid_rate) as Hpos.
  { destruct (Qlt_le_dec 0 mid_rate) as [H | H]; [exact H |].
    rewrite (compare_no_rate live send from_currency to_currency providers H) in Hc.
    discriminate. }
  destruct (compare_with_rate live send from_currency to_currency providers Hpos)
    as (qs & _ & Hc').
  pose proof Hc as Hc0. rewrite Hc' in Hc0. injection Hc0 as <-. simpl.
  repeat split. apply Forall_forall. intros q Hq.
  destruct (compare_quote_record _ _ _ _ _ _ q Hc Hq) as (_ & p & link & _ & ->).
  simpl. auto.
Qed.

Lemma compare_echoes_inputs_witness :
  exists c,
    compare (Some 129.50) 500 "USD" "KES" (Some ["Wise"; "Mukuru"]) = Py.Ok c /\
    cmp_send_amount c = 500 /\
    cmp_mid_market_rate c = 129.50 /\
    Forall (fun q => send_amount q = 500 /\ estimated q = true) (quotes c).
Proof.
  destruct (compare (Some 129.50) 500 "USD" "KES" (Some ["Wise"; "Mukuru"]))
    as [c |] eqn:E; [| discriminate].
  exists c. split; [reflexivity |].
  destruct (compare_echoes_inputs (Some 129.50) 500 "USD" "KES"
              (Some ["Wise"; "Mukuru"]) c E) as (H1 & _ & _ & H4 & Hall).
  split; [exact H1 |]. split; [exact H4 |].
  eapply Forall_impl; [| exact Hall]. intros q (? & _ & _ & _ & ?). auto.
Defined.

(** X5: for a non-negative send amount every quote has a non-negative
    fee, and its true cost is at least its spread, which is itself
    non-negative. *)
Theorem compare_fee_and_cost_nonneg (live : option Q) (send : Q)
    (from_currency to_currency : string) (providers : option (list string))
    (c : Comparison) (q : Quote) :
  0 <= send ->
  compare live send from_currency to_currency providers = Py.Ok c ->
  In q (quotes c) ->
  0 <= fee q /\ 0 <= spread_percent q /\ spread_percent q <= true_cost_percent q.
Proof.
  intros Hs Hc Hq.
  destruct (compare_quote_record _ _ _ _ _ _ q Hc Hq) as (_ & p & link & Hp & Hrec).
  pose proof catalog_cost_bounds as Hb. rewrite Forall_forall in Hb.
  destruct (Hb _ Hp) as (_ & Hspread & Hfee). simpl in Hspread, Hfee.
  specialize (Hfee send Hs).
  assert (0 <= fee q) as Hf
    by (rewrite Hrec; simpl; apply PyFacts.round_nonneg; tauto).
  split; [exact Hf |]. split.
  - rewrite Hrec. simpl. now apply PyFacts.round_nonneg.
  - unfold true_cost_percent.
    assert (spread_percent q = Py.round (spread_percent q) 2) as Hidem
      by (rewrite Hrec; simpl; symmetry; apply round_idempotent).
    rewrite Hidem at 1. apply PyFacts.round_mono.
    destruct (Py.ltb 0 (send_amount q)) eqn:E; [| lra].
    apply PyFacts.ltb_lt in E.
    assert (0 <= fee q / send_amount q)
      by (apply Qle_shift_div_l; [exact E | lra]).
    lra.
Qed.

Lemma compare_fee_and_cost_nonneg_witness :
  0 <= 200 /\
  exists c q,
    compare None 200 "USD" "KES" (Some ["Western Union"]) = Py.Ok c /\
    In q (quotes c) /\
    0 <= fee q /\ 0 <= spread_percent q /\ spread_percent q <= true_cost_percent q.
Proof.
  split; [discriminate |].
  destruct (compare None 200 "USD" "KES" (Some ["Western Union"]))
    as [c |] eqn:E; [| discriminate].
  exists c.
  assert (quotes c <> []) as Hne by (vm_compute in E; injection E as <-; discriminate).
  destruct (quotes c) as [| q qs] eqn:Eq; [congruence |].
  exists q. split; [reflexivity |]. split; [now left |].
  apply (compare_fee_and_cost_nonneg None 200 "USD" "KES"
           (Some ["Western Union"]) c q);
    [discriminate | exact E | rewrite Eq; now left].
Defined.

(** X6: no quote beats the mid-market rate: its exchange rate is
    between 0 and the mid-market rate it records, and for a
    non-negative send amount the recipient gets at most the send
    amount at the mid-market rate, rounded to two decimals. *)
Theorem compare_never_beats_mid_market (live : option Q) (send : Q)
    (from_currency to_currency : string) (providers : option (list string))
    (c : Comparison) (q : Quote) :
  0 <= send ->
  compare live send from_currency to_currency providers = Py.Ok c ->
  In q (quotes c) ->
  0 <= exchange_rate q <= mid_market_rate q /\
  receive_amount q <= Py.round (send * cmp_mid_market_rate c) 2.
Proof.
  intros Hs Hc Hq.
  destruct (compare_header_rate live send from_currency to_currency providers c Hc)
    as [Hmid Hrate].
  destruct (compare_quote_record _ _ _ _ _ _ q Hc Hq) as (Hpos & p & link & Hp & Hrec).
  pose proof catalog_cost_bounds as Hb. rewrite Forall_forall in Hb.
  destruct (Hb _ Hp) as (Hfac & _ & Hfee). simpl in Hfac, Hfee.
  specialize (Hfee send Hs).
  set (mid := get_mid_market_rate live from_currency to_currency) in *.
  set (f := 1 - spread_pct p / 100) in *.
  rewrite Hrec, Hrate. simpl. unfold provider_rate, provider_receive, provider_rate.
  fold f. split; [split |].
  - apply PyFacts.round_nonneg. nra.
  - apply PyFacts.round_mono. nra.
  - apply PyFacts.round_mono.
    destruct (Py.ltb 0 (send - provider_fee p send)) eqn:E.
    + apply PyFacts.ltb_lt in E.
      assert (0 <= mid * f <= mid) as Hmf by nra.
      assert ((send - provider_fee p send) * (mid * f) <= send * (mid * f)) by nra.
      assert (send * (mid * f) <= send * mid) by nra.
      lra.
    + nra.
Qed.

Lemma compare_never_beats_mid_market_witness :
  0 <= 200 /\
  exists c q,
    compare None 200 "EUR" "KES" (Some ["Wise"]) = Py.Ok c /\
    In q (quotes c) /\
    0 <= exchange_rate q <= mid_market_rate q /\
    receive_amount q <= Py.round (200 * cmp_mid_market_rate c) 2.
Proof.
  split; [discriminate |].
  destruct (compare None 200 "EUR" "KES" (Some ["Wise"])) as [c |] eqn:E;
    [| discriminate].
  exists c.
  assert (quotes c <> []) as Hne by (vm_compute in E; injection E as <-; discriminate).
  destruct (quotes c) as [| q qs] eqn:Eq; [congruence |].
  exists q. split; [reflexivity |]. split; [now left |].
  apply (compare_never_beats_mid_market None 200 "EUR" "KES" (Some ["Wise"]) c q);
    [discriminate | exact E | rewrite Eq; now left].
Defined.

(** X7: the headline card of the application.  When the send amount
    is worth at least 1 at the mid-market rate, every quote delivers
    strictly less than the mid-market value, so the delta shown
    against mid-market is negative.  The value at mid-market is also
    at most 10^300: far beyond that the float products overflow and
    the delta of the application is not a number. *)
Theorem headline_delta_negative (live : option Q) (send : Q)
    (from_currency to_currency : string) (providers : option (list string))
    (c : Comparison) (q : Quote) :
  compare live send from_currency to_currency providers = Py.Ok c ->
  In q (quotes c) ->
  1 <= send * cmp_mid_market_rate c ->
  send * cmp_mid_market_rate c <= inject_Z (10 ^ 300) ->
  headline_delta send c q < 0.
Proof.
  intros Hc Hq Hworth _.
  destruct (compare_header_rate live send from_currency to_currency providers c Hc)
    as [Hpos Hrate].
  destruct (compare_quote_record _ _ _ _ _ _ q Hc Hq) as (_ & p & link & Hp & Hrec).
  unfold headline_delta. rewrite Hrate in *.
  set (mid := get_mid_market_rate live from_currency to_currency) in *.
  assert (0 < send) as Hs by nra.
  pose proof catalog_cost_bounds as Hb. rewrite Forall_forall in Hb.
  destruct (Hb _ Hp) as (Hfac & _ & Hfee). simpl in Hfac, Hfee.
  specialize (Hfee send (Qlt_le_weak _ _ Hs)).
  set (f := 1 - spread_pct p / 100) in *.
  rewrite Hrec. simpl.
  pose proof (PyFacts.round2_near (provider_receive p send mid)) as [_ Hhi].
  assert (provider_receive p send mid <= send * mid * (1989 # 2000)) as Hle.
  { unfold provider_receive, provider_rate. fold f.
    destruct (Py.ltb 0 (send - provider_fee p send)) eqn:E.
    - apply PyFacts.ltb_lt in E.
      assert (0 <= mid * f <= mid * (1989 # 2000)) as Hmf by nra.
      assert ((send - provider_fee p send) * (mid * f) <= send * (mid * f)) by nra.
      assert (send * (mid * f) <= send * (mid * (1989 # 2000))) by nra.
      lra.
    - nra. }
  lra.
Qed.

Lemma headline_delta_negative_witness :
  exists c q,
    compare None 200 "USD" "KES" None = Py.Ok c /\
    In q (quotes c) /\
    1 <= 200 * cmp_mid_market_rate c /\
    200 * cmp_mid_market_rate c <= inject_Z (10 ^ 300) /\
    headline_delta 200 c q < 0.
Proof.
  destruct (compare None 200 "USD" "KES" None) as [c |] eqn:E; [| discriminate].
  exists c.
  assert (quotes c <> [] /\ 1 <= 200 * cmp_mid_market_rate c /\
          200 * cmp_mid_market_rate c <= inject_Z (10 ^ 300))
    as (Hne & Hworth & Hbound)
    by (vm_compute in E; injection E as <-; repeat split; discriminate).
  destruct (quotes c) as [| q qs] eqn:Eq; [congruence |].
  exists q. split; [reflexivity |]. split; [now left |].
  split; [exact Hworth |]. split; [exact Hbound |].
  apply (headline_delta_negative None 200 "USD" "KES" None c q);
    [exact E | rewrite Eq; now left | exact Hworth | exact Hbound].
Defined.

(** X8: an amount of at least 6 at a rate of at least 1 always reaches
    the recipient: every quote has a positive receive amount.  (The
    application asks for at least 10, and every fallback rate is above
    35.) *)
Theorem compare_receive_positive (live : option Q) (send : Q)
    (from_currency to_currency : string) (providers : option (list string))
    (c : Comparison) (q : Quote) :
  6 <= send ->
  1 <= get_mid_market_rate live from_currency to_currency ->
  compare live send from_currency to_currency providers = Py.Ok c ->
  In q (quotes c) ->
  0 < receive_amount q.
Proof.
  intros Hs Hmid Hc Hq.
  destruct (compare_quote_record _ _ _ _ _ _ q Hc Hq) as (_ & p & link & Hp & Hrec).
  set (mid := get_mid_market_rate live from_currency to_currency) in *.
  pose proof catalog_cost_bounds as Hb. rewrite Forall_forall in Hb.
  destruct (Hb _ Hp) as (Hfac & _ & Hfee). simpl in Hfac, Hfee.
  assert (0 <= send) as Hs0 by lra. specialize (Hfee send Hs0).
  set (f := 1 - spread_pct p / 100) in *.
  assert ((1 # 2) <= provider_receive p send mid) as Hbig.
  { unfold provider_receive, provider_rate. fold f.
    assert (0 < send - provider_fee p send) as Hnet by lra.
    apply PyFacts.ltb_lt in Hnet as Hb'. rewrite Hb'.
    assert ((193 # 200) <= mid * f) by nra.
    assert ((97 # 100) <= send - provider_fee p send) by lra.
    nra. }
  rewrite Hrec. simpl.
  pose proof (PyFacts.round2_near (provider_receive p send mid)) as [Hlo _].
  lra.
Qed.

Lemma compare_receive_positive_witness :
  6 <= 10 /\
  1 <= get_mid_market_rate None "AED" "KES" /\
  exists c q,
    compare None 10 "AED" "KES" (Some ["Western Union"]) = Py.Ok c /\
    In q (quotes c) /\ 0 < receive_amount q.
Proof.
  split; [discriminate |]. split; [discriminate |].
  destruct (compare None 10 "AED" "KES" (Some ["Western Union"]))
    as [c |] eqn:E; [| discriminate].
  exists c.
  assert (quotes c <> []) as Hne by (vm_compute in E; injection E as <-; discriminate).
  destruct (quotes c) as [| q qs] eqn:Eq; [congruence |].
  exists q. split; [reflexivity |]. split; [now left |].
  apply (compare_receive_positive None 10 "AED" "KES" (Some ["Western Union"]) c q);
    [discriminate | discriminate | exact E | rewrite Eq; now left].
Defined.

(** X9: what a quote stores is already rounded: rounding its fee, its
    receive amount or its spread to two decimals again, or its rates
    to four, changes nothing; so does rounding the true cost of any
    quote. *)
Theorem compare_outputs_rounded (live : option Q) (send : Q)
    (from_currency to_currency : string) (providers : option (list string))
    (c : Comparison) (q : Quote) :
  compare live send from_currency to_currency providers = Py.Ok c ->
  In q (quotes c) ->
  Py.round (fee q) 2 = fee q /\
  Py.round (receive_amount q) 2 = receive_amount q /\
  Py.round (spread_percent q) 2 = spread_percent q /\
  Py.round (exchange_rate q) 4 = exchange_rate q /\
  Py.round (mid_market_rate q) 4 = mid_market_rate q /\
  Py.round (true_cost_percent q) 2 = true_cost_percent q.
Proof.
  intros Hc Hq.
  destruct (compare_quote_record _ _ _ _ _ _ q Hc Hq) as (_ & p & link & _ & Hrec).
  unfold true_cost_percent. rewrite Hrec. simpl.
  repeat split; apply round_idempotent.
Qed.

Lemma compare_outputs_rounded_witness :
  exists c q,
    compare None 333 "CAD" "KES" (Some ["LemFi"]) = Py.Ok c /\
    In q (quotes c) /\
    Py.round (fee q) 2 = fee q /\
    Py.round (receive_amount q) 2 = receive_amount q.
Proof.
  destruct (compare None 333 "CAD" "KES" (Some ["LemFi"])) as [c |] eqn:E;
    [| discriminate].
  exists c.
  assert (quotes c <> []) as Hne by (vm_compute in E; injection E as <-; discriminate).
  destruct (quotes c) as [| q qs] eqn:Eq; [congruence |].
  exists q. split; [reflexivity |]. split; [now left |].
  destruct (compare_outputs_rounded None 333 "CAD" "KES" (Some ["LemFi"]) c q
              E ltac:(rewrite Eq; now left)) as (H1 & H2 & _).
  split; assumption.
Defined.

(** ** Ties: which item [max], [min] and [sorted] put first *)

Section FirstBest.
Context {A K : Type}.
Variable lt : K -> K -> bool.
Variable le : K -> K -> Prop.
Variable key : A -> K.

Hypothesis le_trans : forall a b c, le a b -> le b c -> le a c.
Hypothesis le_total : forall a b, le a b \/ le b a.
Hypothesis lt_true : forall a b, lt a b = true -> ~ le b a.
Hypothesis lt_false : forall a b, lt a b = false -> le b a.

Lemma le_lt_trans (a b c : K) : le a b -> lt b c = true -> lt a c = true.
Proof.
  intros Hab Hbc. destruct (lt a c) eqn:E; [reflexivity |].
  exfalso. apply (lt_true _ _ Hbc). eapply le_trans; [apply lt_false; exact E | exact Hab].
Qed.

Lemma lt_le_trans (a b c : K) : lt a b = true -> le b c -> lt a c = true.
Proof.
  intros Hab Hbc. destruct (lt a c) eqn:E; [reflexivity |].
  exfalso. apply (lt_true _ _ Hab). eapply le_trans; [exact Hbc | apply lt_false; exact E].
Qed.


Lemma max_from_first (xs : list A) : forall best,
  let m := Py.max_from lt key best xs in
  (m = best /\ Forall (fun x => lt (key best) (key x) = false) xs) \/
  (lt (key best) (key m) = true /\ first_max lt key m xs).
Proof.
  induction xs as [| x xs IH]; intros best; cbn zeta; simpl Py.max_from.
  - left. split; [reflexivity | constructor].
  - destruct (lt (key best) (key x)) eqn:E.
    + right. specialize (IH x). cbn zeta in IH.
      set (m := Py.max_from lt key x xs) in *.
      destruct IH as [[Hm Hall] | [Hlt (l1 & l2 & Exs & H1 & H2)]].
      * rewrite Hm. split; [exact E |]. exists [], xs. simpl. auto.
      * split.
        -- eapply le_lt_trans; [| exact Hlt].
           destruct (le_total (key best) (key x)) as [L | L]; [exact L |].
           now apply lt_true in E.
        -- exists (x :: l1), l2. simpl. rewrite Exs.
           split; [reflexivity |]. split; [| exact H2].
           constructor; assumption.
    + specialize (IH best). cbn zeta in IH.
      set (m := Py.max_from lt key best xs) in *.
      destruct IH as [[Hm Hall] | [Hlt (l1 & l2 & Exs & H1 & H2)]].
      * left. split; [exact Hm |]. constructor; assumption.
      * right. split; [exact Hlt |].
        exists (x :: l1), l2. simpl. rewrite Exs.
        split; [reflexivity |]. split; [| exact H2].
        constructor; [| exact H1].
        eapply le_lt_trans; [apply lt_false; exact E | exact Hlt].
Qed.

Lemma max_first (x : A) (xs : list A) :
  first_max lt key (Py.max_from lt key x xs) (x :: xs).
Proof.
  pose proof (max_from_first xs x) as H. cbn zeta in H.
  set (m := Py.max_from lt key x xs) in *.
  destruct H as [[Hm Hall] | [Hlt (l1 & l2 & E & H1 & H2)]].
  - rewrite Hm. exists [], xs. simpl. auto.
  - exists (x :: l1), l2. simpl. rewrite E. split; [reflexivity |].
    split; [| exact H2]. constructor; assumption.
Qed.

End FirstBest.

(** [min] is [max] for the reversed order. *)
Lemma min_from_flip {A K : Type} (lt : K -> K -> bool) (key : A -> K)
    (xs : list A) : forall best,
  Py.min_from lt key best xs = Py.max_from (fun a b => lt b a) key best xs.
Proof. induction xs as [| x xs IH]; intros best; simpl; [reflexivity | apply IH]. Qed.

Section SortedHead.
Context {A K : Type}.
Variable lt : K -> K -> bool.
Variable le : K -> K -> Prop.
Variable key : A -> K.

Hypothesis le_trans : forall a b c, le a b -> le b c -> le a c.
Hypothesis le_total : forall a b, le a b \/ le b a.
Hypothesis lt_true : forall a b, lt a b = true -> ~ le b a.
Hypothesis lt_false : forall a b, lt a b = false -> le b a.

Lemma min_first (x : A) (xs : list A) :
  first_min lt key (Py.min_from lt key x xs) (x :: xs).
Proof.
  unfold first_min. rewrite min_from_flip.
  apply (max_first (fun a b => lt b a) (fun a b => le b a)); auto.
  - intros a b c Hab Hbc. exact (le_trans _ _ _ Hbc Hab).
Qed.






End SortedHead.

(** ** Ties and rankings of a comparison *)

(** X10: among quotes of equal receive amount [best_rate] returns the
    first: every quote before the one it returns delivers strictly
    less, and no quote after it delivers more.  It is [None] only for
    an empty list. *)
Theorem best_rate_first_of_ties (c : Comparison) :
  match best_rate c with
  | None => quotes c = []
  | Some q =>
      exists before after,
        quotes c = (before ++ q :: after)%list /\
        Forall (fun a => receive_amount a < receive_amount q) before /\
        Forall (fun b => receive_amount b <= receive_amount q) after
  end.
Proof.
  unfold best_rate. destruct (quotes c) as [| q0 qs]; [reflexivity |].
  destruct (max_first Py.ltb Qle receive_amount
              Qle_trans Q_le_total Q_lt_true Q_lt_false q0 qs)
    as (l1 & l2 & E & H1 & H2).
  exists l1, l2. split; [exact E |]. split.
  - eapply Forall_impl; [| exact H1]. intros a Ha. now apply PyFacts.ltb_lt.
  - eapply Forall_impl; [| exact H2]. intros b Hb. now apply PyFacts.ltb_ge.
Qed.

(** X11: among quotes of the same transfer-time rank [fastest] returns
    the first: every quote before the one it returns is strictly
    slower, and no quote after it is faster. *)
Theorem fastest_first_of_ties (c : Comparison) :
  match fastest c with
  | None => quotes c = []
  | Some q =>
      exists before after,
        quotes c = (before ++ q :: after)%list /\
        Forall (fun a => (order_get (transfer_time q)
                          < order_get (transfer_time a))%nat) before /\
        Forall (fun b => (order_get (transfer_time q)
                          <= order_get (transfer_time b))%nat) after
  end.
Proof.
  unfold fastest. destruct (quotes c) as [| q0 qs]; [reflexivity |].
  destruct (min_first Nat.ltb Nat.le (fun q => order_get (transfer_time q))
              Nat.le_trans nat_le_total nat_lt_true nat_lt_false q0 qs)
    as (l1 & l2 & E & H1 & H2).
  exists l1, l2. split; [exact E |]. split.
  - eapply Forall_impl; [| exact H1]. intros a Ha. simpl in Ha.
    now apply Nat.ltb_lt.
  - eapply Forall_impl; [| exact H2]. intros b Hb. simpl in Hb.
    now apply Nat.ltb_ge.
Qed.



(** X14: a non-empty provider list with no name of the table gives,
    at a positive rate, a comparison without quotes (not the full
    table and not an error): its ranking is empty and its three views
    are [None]. *)
Theorem compare_only_unknown_names (live : option Q) (send : Q)
    (from_currency to_currency : string) (providers : list string) :
  providers <> [] ->
  Forall (fun name => in_catalog name = false) providers ->
  0 < get_mid_market_rate live from_currency to_currency ->
  exists c,
    compare live send from_currency to_currency (Some providers) = Py.Ok c /\
    quotes c = [] /\ ranked c = [] /\
    best_rate c = None /\ fastest c = None /\ most_trusted c = None.
Proof.
  intros Hne Hall Hpos.
  destruct (compare_with_rate live send from_currency to_currency
              (Some providers) Hpos) as (qs & Hqs & Hc).
  destruct (build_quotes_ok send from_currency to_currency
              (get_mid_market_rate live from_currency to_currency)
              (active_providers (Some providers))) as (qs' & Hqs' & Hmap & _).
  rewrite Hqs in Hqs'. injection Hqs' as <-.
  assert (qs = []) as ->.
  { apply map_eq_nil with (f := provider). rewrite Hmap.
    destruct providers as [| n ns]; [congruence |]. simpl active_providers.
    rewrite Forall_forall in Hall.
    induction (n :: ns) as [| a l IH] in Hall |- *; [reflexivity |].
    simpl. rewrite (Hall a (or_introl eq_refl)). apply IH.
    intros x Hx. apply Hall. now right. }
  eexists. split; [exact Hc |]. repeat split.
Qed.

Lemma compare_only_unknown_names_witness :
  ["Paypal"; "wise"] <> [] /\
  Forall (fun name => in_catalog name = false) ["Paypal"; "wise"] /\
  0 < get_mid_market_rate None "USD" "KES" /\
  exists c,
    compare None 200 "USD" "KES" (Some ["Paypal"; "wise"]) = Py.Ok c /\
    quotes c = [] /\ ranked c = [] /\
    best_rate c = None /\ fastest c = None /\ most_trusted c = None.
Proof.
  split; [discriminate |].
  split; [repeat constructor |].
  split; [reflexivity |].
  apply (compare_only_unknown_names None 200 "USD" "KES" ["Paypal"; "wise"]);
    [discriminate | repeat constructor | reflexivity].
Defined.


(** ** Texts: delivery methods and links *)

Lemma prefix_append (sub s : string) :
  String.prefix sub s = true <-> exists rest, s = (sub ++ rest)%string.
Proof.
  revert s. induction sub as [| a sub IH]; intros s.
  - split; [intros _; now exists s | intros _; destruct s; reflexivity].
  - destruct s as [| b s]; simpl.
    + split; [discriminate | intros [rest H]; discriminate].
    + destruct (Ascii.ascii_dec a b) as [-> | N].
      * rewrite IH. split; intros [rest H]; exists rest; congruence.
      * split; [discriminate | intros [rest H]; congruence].
Qed.

(** The substring test [sub in s] holds exactly when [s] is some text,
    then [sub], then some text. *)
Lemma contains_iff_infix (sub s : string) :
  Py.contains sub s = true <->
  exists before after, s = (before ++ sub ++ after)%string.
Proof.
  induction s as [| ch s IH].
  - change (Py.contains sub "") with (if String.prefix sub "" then true else false).
    destruct (String.prefix sub "") eqn:E.
    + split; [intros _ | reflexivity].
      apply prefix_append in E as [rest E]. now exists "", rest.
    + split; [discriminate |].
      intros (before & after & H).
      destruct before; simpl in H.
      * assert (String.prefix sub "" = true) as F
          by (apply prefix_append; now exists after).
        congruence.
      * discriminate.
  - change (Py.contains sub (String ch s))
      with (if String.prefix sub (String ch s) then true else Py.contains sub s).
    destruct (String.prefix sub (String ch s)) eqn:E.
    + split; [intros _ | reflexivity].
      apply prefix_append in E as [rest E]. now exists "", rest.
    + rewrite IH. split.
      * intros (before & after & ->). now exists (String ch before), after.
      * intros (before & after & H). destruct before as [| b before]; simpl in H.
        -- assert (String.prefix sub (String ch s) = true) as F
             by (apply prefix_append; now exists after).
           congruence.
        -- injection H as _ ->. now exists before, after.
Qed.

(** X15: the quotes [most_trusted] chooses among are exactly the
    quotes whose delivery text has "M-Pesa" somewhere in it, as a
    piece of text: a method named "M-Pesa Express" counts as well. *)
Theorem mpesa_quotes_iff_infix (c : Comparison) (q : Quote) :
  In q (mpesa_quotes c) <->
  In q (quotes c) /\
  exists before after, delivery_method q = (before ++ "M-Pesa" ++ after)%string.
Proof.
  unfold mpesa_quotes. rewrite filter_In, contains_iff_infix. reflexivity.
Qed.

(** X16: in the result of [compare], the delivery text of a quote
    contains "M-Pesa" exactly when M-Pesa is one of the delivery
    methods of its provider. *)
Theorem compare_mpesa_text_iff_delivery (live : option Q) (send : Q)
    (from_currency to_currency : string) (providers : option (list string))
    (c : Comparison) (q : Quote) :
  compare live send from_currency to_currency providers = Py.Ok c ->
  In q (quotes c) ->
  exists p,
    In (provider q, p) _PROVIDER_PROFILES /\
    delivery_method q = Py.join ", " (delivery p) /\
    (Py.contains "M-Pesa" (delivery_method q) = true <-> In "M-Pesa" (delivery p)).
Proof.
  intros Hc Hq.
  destruct (compare_quote_record _ _ _ _ _ _ q Hc Hq) as (_ & p & link & Hp & Hrec).
  exists p. split; [exact Hp |].
  assert (delivery_method q = Py.join ", " (delivery p)) as Hd
    by (rewrite Hrec; reflexivity).
  split; [exact Hd |].
  pose proof catalog_mpesa_text as Ht. rewrite Forall_forall in Ht.
  specialize (Ht _ Hp). cbn [snd] in Ht. rewrite Hd, Ht. rewrite existsb_exists.
  split.
  - intros (x & Hx & Heq). apply String.eqb_eq in Heq. now subst x.
  - intros Hin. exists "M-Pesa". split; [exact Hin | apply String.eqb_refl].
Qed.

Lemma compare_mpesa_text_iff_delivery_witness :
  exists c q,
    compare None 200 "USD" "KES" (Some ["Mukuru"]) = Py.Ok c /\
    In q (quotes c) /\
    exists p,
      In (provider q, p) _PROVIDER_PROFILES /\
      delivery_method q = Py.join ", " (delivery p) /\
      (Py.contains "M-Pesa" (delivery_method q) = true <-> In "M-Pesa" (delivery p)).
Proof.
  destruct (compare None 200 "USD" "KES" (Some ["Mukuru"])) as [c |] eqn:E;
    [| discriminate].
  exists c.
  assert (quotes c <> []) as Hne by (vm_compute in E; injection E as <-; discriminate).
  destruct (quotes c) as [| q qs] eqn:Eq; [congruence |].
  exists q. split; [reflexivity |]. split; [now left |].
  apply (compare_mpesa_text_iff_delivery None 200 "USD" "KES" (Some ["Mukuru"]) c q);
    [exact E | rewrite Eq; now left].
Defined.

Lemma format_brace_free (fields : list (string * string)) (tpl : string) :
  brace_free tpl = true -> Py.format_from fields None tpl = Py.Ok tpl.
Proof.
  induction tpl as [| ch tpl IH]; [reflexivity |].
  simpl. intros H. apply andb_prop in H as [H Hrest]. apply andb_prop in H as [H1 H2].
  apply negb_true_iff in H1, H2. rewrite H1, H2, (IH Hrest). reflexivity.
Qed.

(** X17: the link of a quote.  For any profile whose link template
    has no replacement field the loop body raises nothing and the link
    is the template itself, whatever the amount and the currency; a
    profile without a template gives the empty link. *)
Theorem build_quote_link_without_fields (name : string) (p : Profile) (send : Q)
    (from_currency to_currency : string) (mid_rate : Q) :
  let tpl := match url_template p with Some t => t | None => "" end in
  brace_free tpl = true ->
  exists q,
    build_quote name p send from_currency to_currency mid_rate = Py.Ok q /\
    url q = tpl /\ provider q = name.
Proof.
  intros tpl Hfree. unfold build_quote. fold tpl. unfold Py.format.
  rewrite (format_brace_free _ tpl Hfree). simpl. eexists. split; [reflexivity |].
  split; reflexivity.
Qed.

Lemma build_quote_link_without_fields_witness :
  let p := {| spread_pct := 1.5; fee_type := "fixed"; fee_pct := 0.0;
              fee_fixed := 2.0; time := "hours"; delivery := ["Bank deposit"];
              url_template := None; notes := "" |} in
  brace_free "" = true /\
  exists q,
    build_quote "NewProvider" p 100 "USD" "KES" 129.5 = Py.Ok q /\
    url q = "" /\ provider q = "NewProvider".
Proof.
  intros p. split; [reflexivity |].
  apply (build_quote_link_without_fields "NewProvider" p 100 "USD" "KES" 129.5).
  reflexivity.
Defined.

(** ** True cost of any quote *)

(** X18: for one positive send amount, a quote with a lower or equal
    fee and a lower or equal spread never has a higher true cost. *)
Theorem true_cost_percent_monotone (q1 q2 : Quote) :
  0 < send_amount q1 ->
  send_amount q1 = send_amount q2 ->
  fee q1 <= fee q2 ->
  spread_percent q1 <= spread_percent q2 ->
  true_cost_percent q1 <= true_cost_percent q2.
Proof.
  intros Hs Heq Hfee Hspread. unfold true_cost_percent. rewrite <- Heq.
  apply PyFacts.ltb_lt in Hs as Hb. rewrite Hb.
  apply PyFacts.round_mono.
  assert (fee q1 / send_amount q1 <= fee q2 / send_amount q1).
  { apply Qmult_le_compat_r; [exact Hfee |].
    apply Qlt_le_weak, Qinv_lt_0_compat, Hs. }
  lra.
Qed.

(** X19: a quote without fee costs its spread: its true cost is the
    spread rounded to two decimals, whatever the send amount. *)
Theorem true_cost_percent_zero_fee (q : Quote) :
  fee q == 0 -> true_cost_percent q = Py.round (spread_percent q) 2.
Proof.
  intros Hfee. unfold true_cost_percent. apply PyFacts.round_comp.
  destruct (Py.ltb 0 (send_amount q)) eqn:E; [| lra].
  apply PyFacts.ltb_lt in E. rewrite Hfee. field. lra.
Qed.

Lemma true_cost_percent_monotone_witness :
  let quote fee_ spread_ :=
    {| provider := "P"; send_currency := "USD"; receive_currency := "KES";
       send_amount := 200; receive_amount := 25000; fee := fee_;
       exchange_rate := 125; mid_market_rate := 129.5; spread_percent := spread_;
       transfer_time := "minutes"; delivery_method := "M-Pesa"; estimated := true;
       url := "" |} in
  true_cost_percent (quote 0.82 0.55) <= true_cost_percent (quote 3.99 1.2).
Proof.
  intros quote.
  apply (true_cost_percent_monotone (quote 0.82 0.55) (quote 3.99 1.2));
    [reflexivity | reflexivity | discriminate | discriminate].
Defined.

Lemma true_cost_percent_zero_fee_witness :
  let q :=
    {| provider := "Sendwave"; send_currency := "USD"; receive_currency := "KES";
       send_amount := 200; receive_amount := 25641; fee := 0;
       exchange_rate := 128.205; mid_market_rate := 129.5; spread_percent := 1.0;
       transfer_time := "instant"; delivery_method := "M-Pesa"; estimated := true;
       url := "" |} in
  fee q == 0 /\ true_cost_percent q = Py.round (spread_percent q) 2.
Proof.
  intros q. split; [reflexivity |].
  apply (true_cost_percent_zero_fee q). reflexivity.
Defined.

(** ** The text of a quote *)

Lemma contains_infix (sub before after : string) :
  Py.contains sub (before ++ sub ++ after) = true.
Proof.
  induction before as [| ch before IH].
  - assert (String.prefix sub (sub ++ after) = true) as H
      by (apply prefix_append; now exists after).
    change ("" ++ sub ++ after)%string with (sub ++ after)%string.
    remember (sub ++ after)%string as s eqn:Es.
    destruct s; cbn [Py.contains]; now rewrite H.
  - change (String ch before ++ sub ++ after)%string
      with (String ch (before ++ sub ++ after)).
    cbn [Py.contains]. rewrite IH.
    now destruct (String.prefix sub (String ch (before ++ sub ++ after))).
Qed.

Lemma append_assoc (a b c : string) : ((a ++ b) ++ c = a ++ b ++ c)%string.
Proof. induction a as [| ch a IH]; simpl; [reflexivity | now rewrite IH]. Qed.

(** X20: the text of a quote starts with "Quote(" and the provider's
    name, and it shows the transfer time before the closing
    parenthesis; so both occur in it. *)
Theorem Quote_repr_shows_provider (q : Quote) :
  (exists rest, Quote_repr q = "Quote(" ++ provider q ++ ": send " ++ rest) /\
  (exists start, Quote_repr q = start ++ "time=" ++ transfer_time q ++ ")") /\
  Py.contains (provider q) (Quote_repr q) = true /\
  Py.contains (transfer_time q) (Quote_repr q) = true.
Proof.
  assert (exists start, Quote_repr q = start ++ "time=" ++ transfer_time q ++ ")")
    as [start Hstart].
  { exists ("Quote(" ++ provider q ++ ": send " ++ send_currency q ++ " "
            ++ PyFmt.format_f false 2 (send_amount q)
            ++ " → KES " ++ PyFmt.format_f true 0 (receive_amount q)
            ++ ", fee=" ++ PyFmt.format_f false 2 (fee q)
            ++ ", spread=" ++ PyFmt.format_f false 1 (spread_percent q) ++ "%, "
            ++ "true_cost=" ++ PyFmt.format_f false 2 (true_cost_percent q)
            ++ "%, ").
    unfold Quote_repr. repeat rewrite append_assoc. reflexivity. }
  split; [eexists; reflexivity |]. split; [exists start; exact Hstart |]. split.
  - unfold Quote_repr. apply contains_infix.
  - rewrite Hstart. rewrite <- (append_assoc start "time=").
    apply contains_infix.
Qed.

(** The text of the quote of the test suite. *)
Example Quote_repr_sample :
  Quote_repr {| provider := "Wise"; send_currency := "USD";
                receive_currency := "KES"; send_amount := 200.0;
                receive_amount := 25600.0; fee := 0.82; exchange_rate := 128.5;
                mid_market_rate := 129.5; spread_percent := 0.77;
                transfer_time := "minutes";
                delivery_method := "M-Pesa, Bank deposit";
                estimated := true; url := "" |}
  = "Quote(Wise: send USD 200.00 → KES 25,600, fee=0.82, spread=0.8%, true_cost=1.18%, time=minutes)".
Proof. vm_compute. reflexivity. Qed.
